(** * Hyperliquid funding-rate ranking: model and verification

    A shallow embedding of [backend/hyperliquid_service.py] (the market
    data client and the ranking pipeline) and of the cache logic of
    [backend/server.py] ([update_hyperliquid_data] and the
    [/hyperliquid/top-coins] handler).

    Conventions of the model:
    - a Python [dict] with string keys is a [gmap string _];
    - a Python [float] is a binary64 number, Rocq's primitive [float]:
      arithmetic rounds to nearest-even, there are two zeros, two
      infinities and NaN, and every comparison with NaN is false;
    - a Python [int] is a [Z]; a [datetime] is a number of microseconds
      since the epoch;
    - exceptions are values of [exn]; code that performs requests, reads
      the clock or touches the database runs in the monad [M], a state
      monad over [World] with exceptions;
    - the upstream exchange is an oracle [Upstream] answering requests;
      each request takes [latency] microseconds of the clock.

    Outside the model: requests that get no answer (transport errors,
    time-outs) and answers that are not JSON; response bodies that do
    not have the documented shape (a body that is not a list of objects
    with scalar values); characters outside ASCII in numbers; failures
    of the database driver; the scheduler and concurrent runs (one call
    runs at a time, from start to end); and clocks within an hour of
    the last instant a [datetime] can hold, for which
    [now + timedelta(hours=1)] would overflow. *)

From Stdlib Require Import ZArith Ascii String Lia.
From Stdlib Require Import PrimFloat SpecFloat FloatOps FloatAxioms.
From stdpp Require Import gmap strings list fin_maps sorting.

Local Open Scope string_scope.
Local Open Scope Z_scope.

(** Decimal float literals denote the nearest binary64 number. *)
Set Warnings "-inexact-float".

(** ** Python values, exceptions and [float()] *)

Module Py.

(** The exceptions the modelled code can meet.  [ApiRequestFailed s] is
    the bare [Exception(f"API request failed: {status}")] of
    [fetch_meta_and_contexts]; [HTTPException c] is FastAPI's. *)
Inductive exn :=
| ValueError
| KeyError
| TypeError
| IndexError
| ZeroDivisionError
| OverflowError
| ValidationError
| ApiRequestFailed (status : Z)
| HTTPException (status_code : Z).

#[global] Instance exn_eq_dec : EqDecision exn.
Proof. solve_decision. Defined.

Inductive result (A : Type) :=
| Ok (a : A)
| Raise (e : exn).
Arguments Ok {A} a.
Arguments Raise {A} e.

Definition is_ok {A} (r : result A) : bool :=
  match r with Ok _ => true | Raise _ => false end.

(** Equality of floats as values: the same bits, up to the payload of
    NaN.  (Python's [==] is [PrimFloat.eqb]: it equates the two zeros
    and separates NaN from itself.) *)
#[global] Instance float_eq_dec : EqDecision float.
Proof.
  intros x y. destruct (PrimFloat.Leibniz.eqb x y) eqn:E.
  - left. apply FloatAxioms.Leibniz.eqb_spec. exact E.
  - right. intros H. apply FloatAxioms.Leibniz.eqb_spec in H. congruence.
Defined.

(** JSON scalars as Python sees them after [response.json()]. *)
Inductive pyval :=
| PNone
| PBool (b : bool)
| PInt (z : Z)
| PFloat (f : float)
| PStr (s : string).

#[global] Instance pyval_eq_dec : EqDecision pyval.
Proof. solve_decision. Defined.

Abbreviation Dict := (gmap string pyval).

(** [d[key]] on a dict. *)
Definition getitem (d : Dict) (key : string) : result pyval :=
  match d !! key with
  | Some v => Ok v
  | None => Raise KeyError
  end.

(** [d.get(key, default)]. *)
Definition dict_get (d : Dict) (key : string) (default : pyval) : pyval :=
  match d !! key with
  | Some v => v
  | None => default
  end.

(** *** Rounding to binary64 *)

(** The integer [m], with sign [s], rounded to the nearest float, ties
    to even; an infinity beyond the largest float. *)
Definition round_int (s : bool) (m : positive) : float :=
  SF2Prim (binary_round prec emax s m 0).

(** The quotient [n / d], with sign [s], rounded to the nearest float,
    ties to even: the quotient is cut at the last place a float can
    hold, and the remainder says on which side of the half-way point
    the exact value lies. *)
Definition round_ratio (s : bool) (n d : positive) : float :=
  let '(mz, ez, lz) := SFdiv_core_binary prec emax (Zpos n) 0 (Zpos d) 0 in
  SF2Prim (binary_round_aux prec emax s mz ez lz).

(** The float nearest to an integer. *)
Definition float_of_Z (z : Z) : float :=
  match z with
  | Z0 => 0
  | Zpos m => round_int false m
  | Zneg m => round_int true m
  end.

(** [float(z)] for an [int]: [OverflowError] when [z] is out of the
    range of the finite floats. *)
Definition float_of_int (z : Z) : result float :=
  let f := float_of_Z z in
  if is_infinity f then Raise OverflowError else Ok f.

(** *** Decimal strings *)

Definition digit_of (c : ascii) : option Z :=
  let n := Z.of_N (N_of_ascii c) in
  if (48 <=? n) && (n <=? 57) then Some (n - 48) else None.

Definition is_digit (c : ascii) : bool :=
  match digit_of c with Some _ => true | None => false end.

(** Blanks of a [str], within ASCII: space, the control characters from
    tab to carriage return, and the four separators from 28 to 31. *)
Definition is_space (c : ascii) : bool :=
  let n := Z.of_N (N_of_ascii c) in
  ((9 <=? n) && (n <=? 13)) || ((28 <=? n) && (n <=? 32)).

Fixpoint lstrip (s : string) : string :=
  match s with
  | String c s' => if is_space c then lstrip s' else s
  | EmptyString => s
  end.

Fixpoint rstrip (s : string) : string :=
  match s with
  | String c s' =>
      match rstrip s' with
      | EmptyString => if is_space c then EmptyString else String c EmptyString
      | r => String c r
      end
  | EmptyString => s
  end.

(** Digit-group underscores: each must stand between two digits.
    [prev] is the character before [s]; the result is [s] without its
    underscores. *)
Fixpoint drop_underscores (prev : ascii) (s : string) : option string :=
  match s with
  | String c s' =>
      if bool_decide (c = "_"%char) then
        if is_digit prev then drop_underscores c s' else None
      else if bool_decide (prev = "_"%char) && negb (is_digit c) then None
      else String c <$> drop_underscores c s'
  | EmptyString => if bool_decide (prev = "_"%char) then None else Some s
  end.

Definition lower (c : ascii) : ascii :=
  let n := N_of_ascii c in
  if ((65 <=? n) && (n <=? 90))%N then ascii_of_N (n + 32) else c.

Fixpoint lowercase (s : string) : string :=
  match s with
  | String c s' => String (lower c) (lowercase s')
  | EmptyString => s
  end.

(** Reads the longest prefix of digits: its value (continuing from
    [acc]), how many digits were read, and the rest of the input. *)
Fixpoint read_digits (s : string) (acc : Z) (n : nat) : Z * nat * string :=
  match s with
  | String c s' =>
      match digit_of c with
      | Some d => read_digits s' (10 * acc + d) (S n)
      | None => (acc, n, s)
      end
  | EmptyString => (acc, n, s)
  end.

Definition read_sign (s : string) : bool * string :=
  match s with
  | String "-" s' => (true, s')
  | String "+" s' => (false, s')
  | _ => (false, s)
  end.

(** The exponent part, [e] or [E], an optional sign and at least one
    digit; the empty string is exponent 0. *)
Definition read_exponent (s : string) : option Z :=
  match s with
  | EmptyString => Some 0
  | String c s' =>
      if bool_decide (c = "e"%char) || bool_decide (c = "E"%char) then
        let '(neg, s1) := read_sign s' in
        match read_digits s1 0 0 with
        | (_, O, _) => None
        | (v, _, EmptyString) => Some (if neg then - v else v)
        | _ => None
        end
      else None
  end.

(** The float nearest to [m * 10 ^ e], with sign [s], for a mantissa of
    [digits] decimal digits.  Beyond 10^400 every value is an infinity
    and below 10^-400 every value is a zero; the two tests keep the
    powers of ten small. *)
Definition decimal (s : bool) (m : Z) (digits : nat) (e : Z) : float :=
  match m with
  | Zpos m =>
      if 400 <? e then (if s then neg_infinity else infinity)
      else if e + Z.of_nat digits <? -400 then (if s then neg_zero else zero)
      else if 0 <=? e then round_int s (m * Z.to_pos (10 ^ e))
      else round_ratio s m (Z.to_pos (10 ^ (- e)))
  | _ => if s then neg_zero else zero
  end.

(** [float(s)] for a string.  Surrounding blanks are dropped; then come
    a sign and either [inf], [infinity] or [nan] in any case, or digits
    with an optional fraction and an optional exponent, at least one
    digit in the mantissa, underscores allowed between digits.  The
    value is the nearest float: a decimal string out of range is an
    infinity or a zero. *)
Definition float_of_string (s : string) : option float :=
  s0 ← drop_underscores "000"%char (rstrip (lstrip s));
  let '(neg, s1) := read_sign s0 in
  let word := lowercase s1 in
  if bool_decide (word = "inf") || bool_decide (word = "infinity") then
    Some (if neg then neg_infinity else infinity)
  else if bool_decide (word = "nan") then Some nan
  else
    let '(ip, ni, s2) := read_digits s1 0 0 in
    let '(m, nf, s3) :=
      match s2 with
      | String "." s2' => read_digits s2' ip 0
      | _ => (ip, O, s2)
      end in
    if bool_decide (ni + nf = 0)%nat then None
    else
      e ← read_exponent s3;
      Some (decimal neg m (ni + nf) (e - Z.of_nat nf)).

(** [float(v)]: [ValueError] for a string that is not a number,
    [TypeError] for [None], [OverflowError] for an integer out of
    range. *)
Definition float_ (v : pyval) : result float :=
  match v with
  | PStr s =>
      match float_of_string s with
      | Some f => Ok f
      | None => Raise ValueError
      end
  | PFloat f => Ok f
  | PInt z => float_of_int z
  | PBool b => Ok (if b then 1 else 0)%float
  | PNone => Raise TypeError
  end.

(** Float arithmetic and Python's [<] on floats. *)
Definition fadd (a b : float) : float := (a + b)%float.
Definition fmul (a b : float) : float := (a * b)%float.
Definition flt (a b : float) : bool := (a <? b)%float.

(** [a / len(xs)] for a float [a] and a list of [n] elements:
    [ZeroDivisionError] when the list is empty.  A list's length is
    below 2^63, so its conversion to a float never overflows. *)
Definition truediv (a : float) (n : nat) : result float :=
  if bool_decide (n = 0%nat) then Raise ZeroDivisionError
  else Ok (a / float_of_Z (Z.of_nat n))%float.

(** [sum(xs)]: from the left, starting at 0, each addition rounded (the
    summation of CPython up to 3.11; from 3.12 on, [sum] carries a
    correction term for floats and can differ in the last place). *)
Definition sum (xs : list float) : float := foldl fadd 0%float xs.

(** [int(x)] for a float: the integer part, towards zero. *)
Definition trunc (x : float) : Z :=
  match Prim2SF x with
  | S754_finite s m e =>
      let a := Z.shiftl (Zpos m) e in if s then - a else a
  | _ => 0
  end.

Definition int_of_float (x : float) : result Z :=
  if is_nan x then Raise ValueError
  else if is_infinity x then Raise OverflowError
  else Ok (trunc x).

(** *** Datetimes and timedeltas, in microseconds *)

Definition MICROS_PER_DAY : Z := 86400000000.

(** The first and the last instant of a [datetime]: the start of year 1
    and the end of year 9999. *)
Definition DATETIME_MIN : Z := -62135596800000000.
Definition DATETIME_MAX : Z := 253402300799999999.

(** [timedelta(days=days)]: at most 999999999 days either way. *)
Definition timedelta (days : Z) : result Z :=
  if bool_decide (-999999999 <= days <= 999999999) then Ok (days * MICROS_PER_DAY)
  else Raise OverflowError.

(** [dt - delta] for a datetime and a timedelta. *)
Definition datetime_sub (dt delta : Z) : result Z :=
  let r := dt - delta in
  if bool_decide (DATETIME_MIN <= r <= DATETIME_MAX) then Ok r
  else Raise OverflowError.

(** [dt.timestamp()] for a datetime in UTC: its microseconds divided by
    10^6, an integer division rounded to the nearest float. *)
Definition timestamp (dt : Z) : float :=
  match dt with
  | Z0 => 0
  | Zpos m => round_ratio false m 1000000
  | Zneg m => round_ratio true m 1000000
  end.

(** [int(dt.timestamp() * 1000)]. *)
Definition timestamp_ms (dt : Z) : result Z :=
  int_of_float (fmul (timestamp dt) 1000).

(** [xs[:n]] for an integer [n]: a negative [n] counts from the end. *)
Definition slice_to {A} (xs : list A) (n : Z) : list A :=
  if 0 <=? n then take (Z.to_nat n) xs
  else take (Z.to_nat (Z.of_nat (length xs) + n)) xs.

(** [xs.sort(key=key, reverse=True)].  Python's sort is stable, also
    with [reverse=True]: elements with equal keys keep their order.
    [insert_desc] puts [x] in front of the first element whose key is
    not greater, so inserting from the right yields that arrangement.
    With a NaN among the keys [<] is no order and the result depends on
    which pairs the sort compares; nothing is claimed about it then
    beyond its being a rearrangement. *)
Section Sort.
Context {A : Type} (key : A -> float).

Fixpoint insert_desc (x : A) (l : list A) : list A :=
  match l with
  | [] => [x]
  | y :: l' => if flt (key x) (key y) then y :: insert_desc x l' else x :: l
  end.

Definition sort_desc (l : list A) : list A := foldr insert_desc [] l.
End Sort.

(** [xs[i]] on a list, for a natural index. *)
Definition list_getitem {A} (xs : list A) (i : nat) : result A :=
  match xs !! i with
  | Some x => Ok x
  | None => Raise IndexError
  end.

End Py.
Import Py.

(** ** The ranked record and the world the code runs in *)

(** The dict appended to [eligible_coins], one field per key. *)
Record Coin := {
  coin : pyval;
  avg_funding_rate : float;
  avg_funding_rate_pct : float;
  annualized_funding_rate : float;
  annualized_funding_rate_pct : float;
  current_funding_rate : float;
  current_funding_rate_annualized : float;
  current_funding_rate_annualized_pct : float;
  total_7d_funding_pct : float;
  open_interest_usd : float;
  daily_volume_usd : float;
  mark_price : float;
  funding_data_points : nat
}.

(** The document of the collection [hyperliquid_top_coins]; datetimes
    are microseconds since the epoch. *)
Record Doc := {
  coins : list Coin;
  last_updated : Z;
  next_update : Z
}.

(** What the code can observe and change: the collection, the clock,
    and the requests sent to the exchange so far (oldest first). *)
Record World := {
  db : list Doc;
  clock : Z;
  posts : list Dict
}.

(** The exchange, as an oracle: the reply to [metaAndAssetCtxs] (status
    and the two lists of the body), the reply to each [fundingHistory]
    payload (status and body), and the time a request takes. *)
Record Upstream := {
  meta_status : Z;
  meta_universe : list Dict;
  meta_contexts : list Dict;
  funding_reply : Dict -> Z * list Dict;
  latency : Z
}.

(** ** The monads: exceptions, and state with exceptions *)

Module Monad.

#[global] Instance result_ret : MRet result := fun _ a => Ok a.
#[global] Instance result_bind : MBind result := fun _ _ f r =>
  match r with
  | Ok a => f a
  | Raise e => Raise e
  end.

Definition M (A : Type) : Type := World -> result A * World.

#[global] Instance M_ret : MRet M := fun _ a w => (Ok a, w).
#[global] Instance M_bind : MBind M := fun _ _ f m w =>
  match m w with
  | (Ok a, w') => f a w'
  | (Raise e, w') => (Raise e, w')
  end.

Definition raise {A} (e : exn) : M A := fun w => (Raise e, w).

Definition lift {A} (r : result A) : M A := fun w => (r, w).

(** [try: m except: h]: the handler runs in the state the failed
    computation left behind. *)
Definition try_except {A} (m : M A) (h : exn -> M A) : M A := fun w =>
  match m w with
  | (Ok a, w') => (Ok a, w')
  | (Raise e, w') => h e w'
  end.

(** [datetime.now(timezone.utc)]. *)
Definition now : M Z := fun w => (Ok (clock w), w).

(** One [session.post] to the exchange: the request is sent and time
    passes. *)
Definition post (up : Upstream) (payload : Dict) : M unit := fun w =>
  (Ok tt, {| db := db w;
             clock := clock w + latency up;
             posts := posts w ++ [payload] |}).

End Monad.
Import Monad.

(** ** [hyperliquid_service.py] *)

Module HyperliquidService.

Definition meta_payload : Dict := {[ "type" := PStr "metaAndAssetCtxs" ]}.

(** [fetch_meta_and_contexts]. *)
Definition fetch_meta_and_contexts (up : Upstream) : M (list Dict * list Dict) :=
  _ ← post up meta_payload;
  if bool_decide (meta_status up ≠ 200) then
    raise (ApiRequestFailed (meta_status up))
  else
    mret (meta_universe up, meta_contexts up).

(** The payload of [fetch_funding_history]: [if end_time:] is false for
    [None] and for 0. *)
Definition funding_payload (coin : pyval) (start_time : Z) (end_time : option Z) : Dict :=
  let payload : Dict :=
    <[ "startTime" := PInt start_time ]>
      (<[ "coin" := coin ]> {[ "type" := PStr "fundingHistory" ]}) in
  match end_time with
  | Some e => if bool_decide (e ≠ 0) then <[ "endTime" := PInt e ]> payload else payload
  | None => payload
  end.

(** [fetch_funding_history]: a status other than 200 is logged and
    answered with the empty list. *)
Definition fetch_funding_history (up : Upstream)
    (coin : pyval) (start_time : Z) (end_time : option Z) : M (list Dict) :=
  let payload := funding_payload coin start_time end_time in
  _ ← post up payload;
  let '(status, body) := funding_reply up payload in
  if bool_decide (status ≠ 200) then mret [] else mret body.

(** [float(entry["fundingRate"])]. *)
Definition entry_rate (entry : Dict) : result float :=
  v ← getitem entry "fundingRate"; float_ v.

(** [calculate_average_funding_rate]. *)
Definition calculate_average_funding_rate (funding_history : list Dict) : result float :=
  match funding_history with
  | [] => Ok 0%float
  | _ =>
      rates ← mapM entry_rate funding_history;
      match rates with
      | [] => Ok 0%float
      | _ => truediv (sum rates) (length rates)
      end
  end.

(** The ranking loop, for one call of [get_top_funding_rate_coins]. *)
Section Ranking.
Variable up : Upstream.
Variables min_open_interest min_daily_volume : float.
Variables start_time end_time : Z.

(** The body of the [try] block, lines 105-171: [None] stands for
    [continue], [Some c] for the dict that is appended. *)
Definition process_coin_try (coin_name : pyval) (context : Dict) : M (option Coin) :=
  let open_interest_str := dict_get context "openInterest" (PStr "0") in
  let mark_price_str := dict_get context "markPx" (PStr "0") in
  let daily_volume_str := dict_get context "dayNtlVlm" (PStr "0") in
  open_interest ← lift (float_ open_interest_str);
  mark_price ← lift (float_ mark_price_str);
  daily_volume ← lift (float_ daily_volume_str);
  let open_interest_usd := fmul open_interest mark_price in
  let daily_volume_usd := daily_volume in
  if flt open_interest_usd min_open_interest || flt daily_volume_usd min_daily_volume
  then mret None
  else
    funding_history ← fetch_funding_history up coin_name start_time (Some end_time);
    match funding_history with
    | [] => mret None
    | _ =>
        avg_funding_rate ← lift (calculate_average_funding_rate funding_history);
        let annualized_funding_rate := fmul (fmul avg_funding_rate 3) 365 in
        let annualized_funding_rate_pct := fmul annualized_funding_rate 100 in
        current_funding_rate ← lift (float_ (dict_get context "funding" (PStr "0")));
        let current_funding_rate_annualized := fmul (fmul current_funding_rate 3) 365 in
        let current_funding_rate_annualized_pct :=
          fmul current_funding_rate_annualized 100 in
        rates ← lift (mapM entry_rate funding_history);
        let total_7d_funding := sum rates in
        let total_7d_funding_pct := fmul total_7d_funding 100 in
        mret (Some {|
          coin := coin_name;
          avg_funding_rate := avg_funding_rate;
          avg_funding_rate_pct := fmul avg_funding_rate 100;
          annualized_funding_rate := annualized_funding_rate;
          annualized_funding_rate_pct := annualized_funding_rate_pct;
          current_funding_rate := current_funding_rate;
          current_funding_rate_annualized := current_funding_rate_annualized;
          current_funding_rate_annualized_pct := current_funding_rate_annualized_pct;
          total_7d_funding_pct := total_7d_funding_pct;
          open_interest_usd := open_interest_usd;
          daily_volume_usd := daily_volume_usd;
          mark_price := mark_price;
          funding_data_points := length funding_history |})
    end.

(** [except (ValueError, KeyError, TypeError)]: logged, [continue];
    any other exception leaves the loop. *)
Definition process_coin_except (e : exn) : M (option Coin) :=
  match e with
  | ValueError | KeyError | TypeError => mret None
  | _ => raise e
  end.

Definition process_coin (coin_name : pyval) (context : Dict) : M (option Coin) :=
  try_except (process_coin_try coin_name context) process_coin_except.

(** [for i, coin_meta in enumerate(universe)], from index [i] on, with
    the coins appended so far. *)
Fixpoint rank_loop (contexts : list Dict) (i : nat) (universe : list Dict)
    (eligible_coins : list Coin) : M (list Coin) :=
  match universe with
  | [] => mret eligible_coins
  | coin_meta :: universe' =>
      if bool_decide (length contexts ≤ i)%nat then
        rank_loop contexts (S i) universe' eligible_coins
      else
        coin_name ← lift (getitem coin_meta "name");
        context ← lift (list_getitem contexts i);
        r ← process_coin coin_name context;
        rank_loop contexts (S i) universe'
          (match r with
           | Some c => eligible_coins ++ [c]
           | None => eligible_coins
           end)
  end.
End Ranking.

(** [get_top_funding_rate_coins].  The two readings of the clock follow
    each other with no request in between.  Lines 91-92 stand outside
    every [try]: an [OverflowError] of [timedelta(days=days_back)] or of
    the subtraction ends the run. *)
Definition get_top_funding_rate_coins (up : Upstream)
    (min_open_interest min_daily_volume : float) (days_back top_n : Z) : M (list Coin) :=
  '(universe, contexts) ← fetch_meta_and_contexts up;
  t1 ← now;
  end_time ← lift (timestamp_ms t1);
  t2 ← now;
  delta ← lift (timedelta days_back);
  from ← lift (datetime_sub t2 delta);
  start_time ← lift (timestamp_ms from);
  eligible_coins ←
    rank_loop up min_open_interest min_daily_volume start_time end_time
      contexts 0 universe [];
  let sorted := sort_desc annualized_funding_rate eligible_coins in
  let top_coins := slice_to sorted top_n in
  mret top_coins.

End HyperliquidService.
Import HyperliquidService.

(** ** [server.py]: the refresh and the cached read *)

Module Server.

(** [HyperliquidCoin], the pydantic model of one coin of the response. *)
Record HyperliquidCoin := {
  hc_coin : string;
  hc_avg_funding_rate : float;
  hc_avg_funding_rate_pct : float;
  hc_open_interest_usd : float;
  hc_daily_volume_usd : float;
  hc_mark_price : float;
  hc_current_funding_rate : float;
  hc_funding_data_points : nat
}.

(** [HyperliquidResponse]. *)
Record HyperliquidResponse := {
  success : bool;
  resp_coins : list HyperliquidCoin;
  resp_last_updated : Z;
  resp_next_update : Z;
  error : option exn
}.

(** A [HyperliquidCoin] built from the keys of a stored coin: extra
    keys are ignored; [coin] must be a string. *)
Definition validate_coin (c : Coin) : result HyperliquidCoin :=
  match coin c with
  | PStr name =>
      Ok {| hc_coin := name;
            hc_avg_funding_rate := avg_funding_rate c;
            hc_avg_funding_rate_pct := avg_funding_rate_pct c;
            hc_open_interest_usd := open_interest_usd c;
            hc_daily_volume_usd := daily_volume_usd c;
            hc_mark_price := mark_price c;
            hc_current_funding_rate := current_funding_rate c;
            hc_funding_data_points := funding_data_points c |}
  | _ => Raise ValidationError
  end.

(** The collection [db.hyperliquid_top_coins]. *)
Definition find_one : M (option Doc) := fun w => (Ok (head (db w)), w).

Definition delete_many : M unit := fun w =>
  (Ok tt, {| db := []; clock := clock w; posts := posts w |}).

Definition insert_one (d : Doc) : M unit := fun w =>
  (Ok tt, {| db := db w ++ [d]; clock := clock w; posts := posts w |}).

Definition MICROS_PER_HOUR : Z := 3600000000.

(** [update_hyperliquid_data]: the refresh.  [except Exception] logs and
    returns. *)
Definition update_hyperliquid_data (up : Upstream) : M unit :=
  try_except
    (coins ← get_top_funding_rate_coins up 10000000 10000000 7 10;
     t ← now;
     let next_update := t + MICROS_PER_HOUR in
     _ ← delete_many;
     insert_one {| coins := coins; last_updated := t; next_update := next_update |})
    (fun _ => mret tt).

(** Lines 338-353: the response built from the cached document;
    [cached_data["coins"]] on [None] is a [TypeError]. *)
Definition respond (cached_data : option Doc) : M HyperliquidResponse :=
  match cached_data with
  | None => raise TypeError
  | Some d =>
      coins ← lift (mapM validate_coin (coins d));
      mret {| success := true;
              resp_coins := coins;
              resp_last_updated := last_updated d;
              resp_next_update := next_update d;
              error := None |}
  end.

(** The [try] block of [get_hyperliquid_top_coins].  The staleness test
    [(now - last_updated).total_seconds() > 3600] compares the
    difference, rounded to a float number of seconds, with 3600;
    rounding is monotone and 3600 is a float, so the test is that of the
    microseconds with one hour. *)
Definition get_hyperliquid_top_coins_try (up : Upstream) (force_refresh : bool)
    : M HyperliquidResponse :=
  cached_data ← find_one;
  cached_data ←
    (if force_refresh || negb (bool_decide (is_Some cached_data)) then
       _ ← update_hyperliquid_data up; find_one
     else mret cached_data);
  match cached_data with
  | None => raise (HTTPException 503)
  | Some d =>
      t ← now;
      cached_data ←
        (if bool_decide (MICROS_PER_HOUR < t - last_updated d) then
           _ ← update_hyperliquid_data up; find_one
         else mret cached_data);
      respond cached_data
  end.

(** [except HTTPException: raise] and [except Exception]: the
    unsuccessful response. *)
Definition get_hyperliquid_top_coins_except (e : exn) : M HyperliquidResponse :=
  match e with
  | HTTPException _ => raise e
  | _ =>
      t ← now;
      mret {| success := false;
              resp_coins := [];
              resp_last_updated := t;
              resp_next_update := t;
              error := Some e |}
  end.

(** [get_hyperliquid_top_coins], the read: the handler from line 314
    on, for a request whose database handle is there.  The check of the
    handle on line 312 is [App._ensure_db], and the handler with it is
    [App.top_coins_endpoint]. *)
Definition get_hyperliquid_top_coins (up : Upstream) (force_refresh : bool)
    : M HyperliquidResponse :=
  try_except (get_hyperliquid_top_coins_try up force_refresh)
             get_hyperliquid_top_coins_except.

(** The refreshes a world has seen: the [metaAndAssetCtxs] requests
    among its posts, one per run of [update_hyperliquid_data]. *)
Definition refresh_count (w : World) : nat :=
  length (filter (λ p : Dict, p = meta_payload) (posts w)).

End Server.
Import Server.

(** ** Vocabulary of the statements and test data *)

(** The coin that [process_coin_try] appends, from the parsed numbers:
    open interest, mark price, daily volume, current funding rate, the
    fetched history, its rates and their average. *)
Definition scored_coin (name : pyval) (oi mp vol cur : float)
    (h : list Dict) (rates : list float) (avg : float) : Coin :=
  {| coin := name;
     avg_funding_rate := avg;
     avg_funding_rate_pct := fmul avg 100;
     annualized_funding_rate := fmul (fmul avg 3) 365;
     annualized_funding_rate_pct := fmul (fmul (fmul avg 3) 365) 100;
     current_funding_rate := cur;
     current_funding_rate_annualized := fmul (fmul cur 3) 365;
     current_funding_rate_annualized_pct := fmul (fmul (fmul cur 3) 365) 100;
     total_7d_funding_pct := fmul (sum rates) 100;
     open_interest_usd := fmul oi mp;
     daily_volume_usd := vol;
     mark_price := mp;
     funding_data_points := length h |}.

(** [appended_at ... universe contexts j c]: the coin [c] is what the
    loop appends for index [j], from the metadata and the context at
    that index. *)
Definition appended_at (up : Upstream) (min_oi min_vol : float) (st en : Z)
    (universe contexts : list Dict) (j : nat) (c : Coin) : Prop :=
  exists meta ctx w1 w2,
    universe !! j = Some meta
    /\ contexts !! j = Some ctx
    /\ meta !! "name" = Some (coin c)
    /\ process_coin up min_oi min_vol st en (coin c) ctx w1 = (Ok (Some c), w2).

(** The exceptions that [except (ValueError, KeyError, TypeError)]
    catches. *)
Definition caught (e : exn) : Prop :=
  e = ValueError \/ e = KeyError \/ e = TypeError.

(** The exceptions that the conversions of the [try] block can raise. *)
Definition float_raises_here (e : exn) : Prop := caught e \/ e = OverflowError.

Definition is_funding_request (p : Dict) : Prop :=
  p !! "type" = Some (PStr "fundingHistory").

(** Non-increasing order of two elements under a key, by Python's
    [<=] on floats. *)
Definition desc {A} (key : A -> float) (a b : A) : Prop :=
  (key b <=? key a)%float = true.

(** Where a float stands in the order of [<]: [None] for NaN, which is
    not ordered; otherwise its class (the infinities outermost, zero of
    either sign in the middle), then exponent and mantissa, both negated
    below zero.  Floats compare as these triples do, in lexicographic
    order. *)
Definition fkey (x : float) : option (Z * Z * Z) :=
  match Prim2SF x with
  | S754_nan => None
  | S754_zero _ => Some (0, 0, 0)
  | S754_infinity s => Some (if s then -2 else 2, 0, 0)
  | S754_finite s m e => Some (if s then (-1, - e, Zneg m) else (1, e, Zpos m))
  end.

Definition key_compare (a b : Z * Z * Z) : comparison :=
  let '(a1, a2, a3) := a in
  let '(b1, b2, b3) := b in
  match a1 ?= b1 with
  | Eq => match a2 ?= b2 with Eq => a3 ?= b3 | c => c end
  | c => c
  end.

Definition key_lt (a b : Z * Z * Z) : Prop :=
  let '(a1, a2, a3) := a in
  let '(b1, b2, b3) := b in
  a1 < b1 \/ (a1 = b1 /\ (a2 < b2 \/ (a2 = b2 /\ a3 < b3))).

(** The world after one request has been sent. *)
Definition sent (up : Upstream) (payload : Dict) (w : World) : World :=
  {| db := db w; clock := clock w + latency up; posts := posts w ++ [payload] |}.

(** The funding-history window of a run that reads the clock at [t],
    in milliseconds. *)
Definition window_end (t : Z) : Z := trunc (fmul (timestamp t) 1000).
Definition window_start (t days_back : Z) : Z :=
  trunc (fmul (timestamp (t - days_back * MICROS_PER_DAY)) 1000).

(** Lines 91-92 for a run that reads the clock at [t]: the start and
    the end of the window, or the exception that ends the run. *)
Definition window (t days_back : Z) : result (Z * Z) :=
  end_time ← timestamp_ms t;
  delta ← timedelta days_back;
  from ← datetime_sub t delta;
  start_time ← timestamp_ms from;
  Ok (start_time, end_time).

(** Whether the window of a run at [t] can be computed: the look-back
    is a [timedelta], its start is a [datetime], and both ends are
    finite timestamps. *)
Definition window_ok (t days_back : Z) : Prop :=
  -999999999 <= days_back <= 999999999
  /\ DATETIME_MIN <= t - days_back * MICROS_PER_DAY <= DATETIME_MAX
  /\ is_finite (fmul (timestamp t) 1000) = true
  /\ is_finite (fmul (timestamp (t - days_back * MICROS_PER_DAY)) 1000) = true.



(** The world a refresh leaves behind. *)
Definition refreshed (up : Upstream) (w : World) : World :=
  snd (update_hyperliquid_data up w).

(** The same world, [dt] microseconds later. *)
Definition later (dt : Z) (w : World) : World :=
  {| db := db w; clock := clock w + dt; posts := posts w |}.

(** The successful response that serves a stored document. *)
Definition served (d : Doc) (cs : list HyperliquidCoin) : HyperliquidResponse :=
  {| success := true;
     resp_coins := cs;
     resp_last_updated := last_updated d;
     resp_next_update := next_update d;
     error := None |}.

(** Whether a world's stored snapshot is older than an hour. *)
Definition stale (w : World) : bool :=
  match head (db w) with
  | Some d => bool_decide (MICROS_PER_HOUR < clock w - last_updated d)
  | None => false
  end.

Module Scenario.

Definition btc_meta : Dict := {[ "name" := PStr "BTC" ]}.
Definition eth_meta : Dict := {[ "name" := PStr "ETH" ]}.

(** Open interest 100 at mark price 100000: exactly 10,000,000 USD. *)
Definition btc_ctx_no_funding : Dict :=
  <[ "dayNtlVlm" := PStr "20000000" ]>
    (<[ "markPx" := PStr "100000" ]> {[ "openInterest" := PStr "100" ]}).

Definition btc_ctx : Dict := <[ "funding" := PStr "0.0000125" ]> btc_ctx_no_funding.

Definition entry (rate : string) : Dict := {[ "fundingRate" := PStr rate ]}.

(** The float a decimal string denotes. *)
Definition f64 (s : string) : float := default nan (float_of_string s).

Definition history3 : list Dict := [entry "0.0001"; entry "0.0001"; entry "0.0001"].

(** An exchange that answers, with one instrument. *)
Definition exchange_up (ctx : Dict) : Upstream :=
  {| meta_status := 200;
     meta_universe := [btc_meta];
     meta_contexts := [ctx];
     funding_reply := fun _ => (200, history3);
     latency := 5 |}.

(** An exchange whose bulk request fails with status 500. *)
Definition exchange_down : Upstream :=
  {| meta_status := 500;
     meta_universe := [];
     meta_contexts := [];
     funding_reply := fun _ => (500, []);
     latency := 5 |}.

Definition sol_meta : Dict := {[ "name" := PStr "SOL" ]}.

(** Three instruments with the same context; SOL has one history entry
    at a higher rate, BTC and ETH share a history. *)
Definition exchange_three : Upstream :=
  {| meta_status := 200;
     meta_universe := [btc_meta; eth_meta; sol_meta];
     meta_contexts := [btc_ctx; btc_ctx; btc_ctx];
     funding_reply := fun p =>
       if bool_decide (p !! "coin" = Some (PStr "SOL"))
       then (200, [entry "0.0005"]) else (200, history3);
     latency := 5 |}.

Definition rates3 : list float := [f64 "0.0001"; f64 "0.0001"; f64 "0.0001"].

Definition named_coin (name : string) : Coin :=
  scored_coin (PStr name) 100 100000 20000000 (f64 "0.0000125") history3
    rates3 (f64 "0.0001").

Definition sol_coin : Coin :=
  scored_coin (PStr "SOL") 100 100000 20000000 (f64 "0.0000125") [entry "0.0005"]
    [f64 "0.0005"] (f64 "0.0005").

Definition btc_coin (cur : float) : Coin :=
  scored_coin (PStr "BTC") 100 100000 20000000 cur history3
    rates3 (f64 "0.0001").

(** A store that is empty, at some instant. *)
Definition world_empty : World :=
  {| db := []; clock := 1000000000; posts := [] |}.

(** A snapshot written at instant 0, and a store holding it two hours
    later. *)
Definition old_doc : Doc :=
  {| coins := [btc_coin 0]; last_updated := 0; next_update := MICROS_PER_HOUR |}.

Definition world_stale : World :=
  {| db := [old_doc]; clock := 2 * MICROS_PER_HOUR; posts := [] |}.

(** The same snapshot, read a second after it was written. *)
Definition world_fresh : World :=
  {| db := [old_doc]; clock := 1000000; posts := [] |}.

Definition btc_response_coin : HyperliquidCoin :=
  {| hc_coin := "BTC";
     hc_avg_funding_rate := f64 "0.0001";
     hc_avg_funding_rate_pct := f64 "0.01";
     hc_open_interest_usd := 10000000;
     hc_daily_volume_usd := 20000000;
     hc_mark_price := 100000;
     hc_current_funding_rate := 0;
     hc_funding_data_points := 3 |}.

End Scenario.

(** ** [server.py]: the database handle and the agent cache *)

Module App.

(** [_ensure_db]: [request.app.state.db], HTTP 503 when the attribute is
    not there. *)
Definition _ensure_db {Db : Type} (state_db : option Db) : result Db :=
  match state_db with
  | Some db => Ok db
  | None => Raise (HTTPException 503)
  end.

(** The endpoint [GET /hyperliquid/top-coins], lines 312-365:
    [_ensure_db] runs before the [try] block, so its HTTP 503 reaches the
    client; [state_db] says whether [app.state.db] is set. *)
Definition top_coins_endpoint (state_db : option unit) (up : Upstream)
    (force_refresh : bool) : M HyperliquidResponse :=
  _ ← lift (_ensure_db state_db);
  get_hyperliquid_top_coins up force_refresh.

(** The agents come from [ai_agents.agents], which is not part of the
    sources: their type, the configuration and the two constructors
    (which may raise) are parameters.  [app.state.agent_cache] is one
    shared dict, or is not set yet. *)
Section Agents.
Context {Agent AgentConfig : Type}.
Variables SearchAgent ChatAgent : AgentConfig -> result Agent.

(** [_get_agent_cache]: the dict and the state that now holds it. *)
Definition _get_agent_cache (agent_cache : option (gmap string Agent))
    : gmap string Agent * option (gmap string Agent) :=
  match agent_cache with
  | Some cache => (cache, Some cache)
  | None => (∅, Some ∅)
  end.

(** [_get_or_create_agent]. *)
Definition _get_or_create_agent (config : AgentConfig) (agent_type : string)
    (agent_cache : option (gmap string Agent))
    : result Agent * option (gmap string Agent) :=
  let '(cache, state) := _get_agent_cache agent_cache in
  match cache !! agent_type with
  | Some agent => (Ok agent, state)
  | None =>
      if bool_decide (agent_type = "search") then
        match SearchAgent config with
        | Ok agent => (Ok agent, Some (<[agent_type := agent]> cache))
        | Raise e => (Raise e, state)
        end
      else if bool_decide (agent_type = "chat") then
        match ChatAgent config with
        | Ok agent => (Ok agent, Some (<[agent_type := agent]> cache))
        | Raise e => (Raise e, state)
        end
      else (Raise (HTTPException 400), state)
  end.
End Agents.

End App.
Import App.

(** ** Vocabulary for the store and the responses *)

(** A coin as the refresh stores it: not below the default thresholds,
    scored on at least one entry, annualized from its average. *)
Definition stored_coin_ok (c : Coin) : Prop :=
  flt (open_interest_usd c) 10000000 = false
  /\ flt (daily_volume_usd c) 10000000 = false
  /\ (0 < funding_data_points c)%nat
  /\ annualized_funding_rate c = fmul (fmul (avg_funding_rate c) 3) 365.

(** A document as the refresh writes it. *)
Definition good_doc (d : Doc) : Prop :=
  (length (coins d) <= 10)%nat
  /\ Forall stored_coin_ok (coins d)
  /\ next_update d = last_updated d + MICROS_PER_HOUR.

(** A collection as the refresh leaves it: at most one document, and a
    good one. *)
Definition good_store (w : World) : Prop :=
  (length (db w) <= 1)%nat /\ Forall good_doc (db w).

Definition response_coin_ok (c : HyperliquidCoin) : Prop :=
  flt (hc_open_interest_usd c) 10000000 = false
  /\ flt (hc_daily_volume_usd c) 10000000 = false
  /\ (0 < hc_funding_data_points c)%nat.

(** The unsuccessful response of the read, for the exception [e] at
    instant [t]. *)
Definition failed (e : exn) (t : Z) : HyperliquidResponse :=
  {| success := false;
     resp_coins := [];
     resp_last_updated := t;
     resp_next_update := t;
     error := Some e |}.

(** The document a refresh writes at instant [t]. *)
Definition snapshot (cs : list Coin) (t : Z) : Doc :=
  {| coins := cs; last_updated := t; next_update := t + MICROS_PER_HOUR |}.

(** The dict behind [app.state.agent_cache], empty when not set. *)
Definition cache_of {Agent : Type} (agent_cache : option (gmap string Agent))
    : gmap string Agent :=
  default ∅ agent_cache.

(** Worlds that differ only in what the ranking does not read. *)
Definition same_clock (w v : World) : Prop := clock w = clock v.

(** The funding-history request for the instrument of a universe. *)
Definition request_for (universe : list Dict) (st en : Z) (p : Dict) : Prop :=
  exists k meta name,
    universe !! k = Some meta
    /\ meta !! "name" = Some name
    /\ p = funding_payload name st (Some en).


(** Whether no integer of a dict is too large for [float()]. *)
Definition int_in_range (v : pyval) : bool :=
  match v with
  | PInt z => is_ok (float_of_int z)
  | _ => true
  end.

Definition ints_in_range (d : Dict) : Prop :=
  map_Forall (fun _ v => int_in_range v = true) d.



Module ScenarioApp.

(** A universe whose second instrument has no name. *)
Definition exchange_nameless : Upstream :=
  {| meta_status := 200;
     meta_universe := [Scenario.btc_meta; ∅];
     meta_contexts := [Scenario.btc_ctx; Scenario.btc_ctx];
     funding_reply := fun _ => (200, Scenario.history3);
     latency := 5 |}.

(** An exchange that answers the bulk request and refuses every
    funding-history request. *)
Definition exchange_no_history : Upstream :=
  {| meta_status := 200;
     meta_universe := [Scenario.btc_meta];
     meta_contexts := [Scenario.btc_ctx];
     funding_reply := fun _ => (503, Scenario.history3);
     latency := 5 |}.




End ScenarioApp.

(** * Verification *)

(** ** Running the monads *)

Lemma result_bind_Ok {A B} (f : A -> result B) (r : result A) (b : B) :
  r ≫= f = Ok b -> exists a, r = Ok a /\ f a = Ok b.
Proof. destruct r as [a|e]; simpl; [eauto | discriminate]. Qed.

Lemma M_bind_run {A B} (f : A -> M B) (m : M A) (w : World) :
  (m ≫= f) w =
  match m w with
  | (Ok a, w') => f a w'
  | (Raise e, w') => (Raise e, w')
  end.
Proof. reflexivity. Qed.

Lemma try_except_run {A} (m : M A) (h : exn -> M A) (w : World) :
  try_except m h w =
  match m w with
  | (Ok a, w') => (Ok a, w')
  | (Raise e, w') => h e w'
  end.
Proof. reflexivity. Qed.

(** ** Decimal strings, on examples *)

Example float_of_string_fraction :
  float_of_string "0.0001" = Some 0.0001%float.
Proof. vm_compute. reflexivity. Qed.

Example float_of_string_signed : float_of_string "-12.50" = Some (-12.5)%float.
Proof. vm_compute. reflexivity. Qed.

Example float_of_string_exponent :
  float_of_string "1e-3" = Some 0.001%float.
Proof. vm_compute. reflexivity. Qed.

Example float_of_string_blanks_and_groups :
  float_of_string " 100 " = Some 100%float
  /\ float_of_string "10_000_000" = Some 10000000%float.
Proof. split; vm_compute; reflexivity. Qed.

(** Out of range, a decimal string is an infinity or a zero. *)
Example float_of_string_out_of_range :
  float_of_string "1e400" = Some infinity
  /\ float_of_string "-1e400" = Some neg_infinity
  /\ float_of_string "1e-400" = Some 0%float
  /\ float_of_string "nan" = Some nan
  /\ float_of_string "-Infinity" = Some neg_infinity.
Proof. repeat split; vm_compute; reflexivity. Qed.

Example float_of_string_rejected :
  Forall (fun s => float_of_string s = None)
    ["abc"; ""; " "; "1_"; "_1"; "1__0"; "1e"; "."; "0x10"; "1 2"; "infinit"].
Proof. repeat constructor. Qed.

(** An integer is converted when it is in range. *)
Example float_of_int_range :
  float_ (PInt (10 ^ 400)) = Raise OverflowError
  /\ float_ (PInt 10000000) = Ok 10000000%float.
Proof. split; vm_compute; reflexivity. Qed.

(** Rounding is visible in sums and products. *)
Example float_rounding :
  calculate_average_funding_rate (map Scenario.entry ["0.1"; "0.2"; "0.3"])
  = Ok 0.20000000000000004%float
  /\ calculate_average_funding_rate (map Scenario.entry ["1e308"; "1e308"])
     = Ok infinity.
Proof. split; vm_compute; reflexivity. Qed.

(** ** The scenarios of the specification, evaluated *)

(** Open interest exactly at the threshold, three entries at 0.0001:
    average 0.0001, annualized 0.10950000000000001 (the product
    0.0001 * 3 * 365, rounded twice). *)
Example scenario_at_threshold :
  fst (get_top_funding_rate_coins (Scenario.exchange_up Scenario.btc_ctx)
         10000000 10000000 7 10 Scenario.world_empty)
  = Ok [Scenario.btc_coin (Scenario.f64 "0.0000125")]
  /\ avg_funding_rate (Scenario.btc_coin (Scenario.f64 "0.0000125"))
     = 0.0001%float
  /\ annualized_funding_rate (Scenario.btc_coin (Scenario.f64 "0.0000125"))
     = 0.10950000000000001%float.
Proof. repeat split; vm_compute; reflexivity. Qed.

(** A daily volume of 5,000,000 is below the threshold: excluded, and
    no history is requested. *)
Example scenario_low_volume :
  get_top_funding_rate_coins
    (Scenario.exchange_up (<[ "dayNtlVlm" := PStr "5000000" ]> Scenario.btc_ctx))
    10000000 10000000 7 10 Scenario.world_empty
  = (Ok [], sent (Scenario.exchange_up Scenario.btc_ctx) meta_payload Scenario.world_empty).
Proof. vm_compute. reflexivity. Qed.

(** Equal rates keep the universe order; a higher rate comes first. *)
Example scenario_ties :
  fst (get_top_funding_rate_coins Scenario.exchange_three
         10000000 10000000 7 10 Scenario.world_empty)
  = Ok [Scenario.sol_coin; Scenario.named_coin "BTC"; Scenario.named_coin "ETH"].
Proof. vm_compute. reflexivity. Qed.

(** A look-back of 800000 days starts before year 1: the run ends with
    [OverflowError], after the bulk request. *)
Example scenario_long_look_back :
  get_top_funding_rate_coins (Scenario.exchange_up Scenario.btc_ctx)
    10000000 10000000 800000 10 Scenario.world_empty
  = (Raise OverflowError,
     sent (Scenario.exchange_up Scenario.btc_ctx) meta_payload Scenario.world_empty).
Proof. vm_compute. reflexivity. Qed.

(** The window of the scenarios, seven days back from 1000.000005 s
    after the epoch, in milliseconds; the timestamps of the first and
    of the last datetime are finite. *)
Example window_of_the_scenarios :
  window 1000000005 7 = Ok (-603799999, 1000000)
  /\ window_ok 1000000005 7
  /\ timestamp_ms DATETIME_MIN = Ok (-62135596800000)
  /\ timestamp_ms DATETIME_MAX = Ok 253402300800000.
Proof.
  split; [vm_compute; reflexivity|]. split; [|split; vm_compute; reflexivity].
  repeat split; try (vm_compute; congruence); vm_compute; reflexivity.
Qed.

(** A negative [top_n] slices from the end. *)
Example slice_to_negative : slice_to [1; 2; 3] (-1) = [1; 2].
Proof. reflexivity. Qed.

(** ** The funding-history payload *)

Lemma fetch_funding_history_run up c st en w :
  fetch_funding_history up c st en w =
  (Ok (let '(status, body) := funding_reply up (funding_payload c st en) in
       if bool_decide (status ≠ 200) then [] else body),
   {| db := db w; clock := clock w + latency up;
      posts := posts w ++ [funding_payload c st en] |}).
Proof.
  unfold fetch_funding_history. change (?m ≫= ?f) with (M_bind _ _ f m).
  unfold M_bind, post.
  destruct (funding_reply up (funding_payload c st en)) as [status body].
  case_bool_decide; reflexivity.
Qed.

(** C9. [fetch_funding_history] called with [end_time = 0] sends the
    payload of a call without [end_time] (so the request reads "through
    now"): every call sends one request, whose body is
    [funding_payload]; in that payload the key [endTime] is absent for
    [end_time = 0], and it is present exactly when [end_time] is an
    integer other than 0, in which case it carries it. *)
Theorem C9_end_time_zero_is_omitted (up : Upstream) (c : pyval) (st : Z) :
  (forall (end_time : option Z) (w : World),
     snd (fetch_funding_history up c st end_time w)
     = sent up (funding_payload c st end_time) w)
  /\ funding_payload c st (Some 0) !! "endTime" = None
  /\ funding_payload c st (Some 0) = funding_payload c st None
  /\ fetch_funding_history up c st (Some 0) = fetch_funding_history up c st None
  /\ forall end_time : option Z,
       (is_Some (funding_payload c st end_time !! "endTime")
        <-> exists e, end_time = Some e /\ e <> 0)
       /\ forall e, end_time = Some e -> e <> 0 ->
            funding_payload c st end_time !! "endTime" = Some (PInt e).
Proof.
  split; [intros en w; rewrite fetch_funding_history_run; reflexivity|].
  split; [reflexivity|]. split; [reflexivity|]. split; [reflexivity|].
  intros [e|]; unfold funding_payload; simpl.
  - case_bool_decide as He.
    + split.
      * split; [intros _; eauto|]. intros _. rewrite lookup_insert_eq. eauto.
      * intros e' [= <-] _. apply lookup_insert_eq.
    + assert (e = 0) as -> by lia. split.
      * split; [intros [v Hv]; discriminate Hv|]. intros (e' & [= <-] & Hne). lia.
      * intros e' [= <-] Hne. lia.
  - split.
    + split; [intros [v Hv]; discriminate Hv|]. intros (e' & Heq & _). discriminate.
    + intros e' Heq. discriminate.
Qed.

(** ** The average *)

Lemma mapM_result_length {A B} (f : A -> result B) (l : list A) (k : list B) :
  mapM f l = Ok k -> length k = length l.
Proof.
  revert k. induction l as [|x l IH]; intros k; simpl.
  - intros [= <-]. reflexivity.
  - intros H. apply result_bind_Ok in H as (y & _ & H).
    apply result_bind_Ok in H as (k' & Hk' & H).
    injection H as <-. simpl. f_equal. apply IH, Hk'.
Qed.

Lemma truediv_nonzero (a : float) (n : nat) :
  n <> 0%nat -> truediv a n = Ok (a / float_of_Z (Z.of_nat n))%float.
Proof. intros Hn. unfold truediv. case_bool_decide; [contradiction|reflexivity]. Qed.

(** The value of [calculate_average_funding_rate] on a history whose
    entries all carry a rate. *)
Lemma calculate_average_Ok (h : list Dict) (rates : list float) :
  h <> [] -> mapM entry_rate h = Ok rates ->
  calculate_average_funding_rate h
  = Ok (sum rates / float_of_Z (Z.of_nat (length rates)))%float.
Proof.
  intros Hh Hr. unfold calculate_average_funding_rate.
  destruct h as [|e h]; [congruence|]. rewrite Hr. simpl.
  assert (rates <> []) as Hne.
  { apply mapM_result_length in Hr. destruct rates; [discriminate|congruence]. }
  destruct rates as [|r rates]; [congruence|].
  apply truediv_nonzero. discriminate.
Qed.


Lemma calculate_average_Raise (h : list Dict) (e : exn) :
  calculate_average_funding_rate h = Raise e <-> mapM entry_rate h = Raise e.
Proof.
  split.
  - intros H. destruct h as [|d h]; [discriminate|].
    destruct (mapM entry_rate (d :: h)) as [rates|e'] eqn:Hr.
    + rewrite (calculate_average_Ok _ rates) in H; [discriminate|congruence|exact Hr].
    + unfold calculate_average_funding_rate in H. rewrite Hr in H.
      simpl in H. injection H as ->. reflexivity.
  - intros H. destruct h as [|d h]; [discriminate|].
    unfold calculate_average_funding_rate. rewrite H. reflexivity.
Qed.

Lemma float_of_int_raises (z : Z) (e : exn) :
  float_of_int z = Raise e -> e = OverflowError.
Proof. unfold float_of_int. destruct (is_infinity _); congruence. Qed.

Lemma float_raises (v : pyval) (e : exn) :
  float_ v = Raise e -> caught e \/ e = OverflowError.
Proof.
  unfold caught. destruct v; simpl; try discriminate.
  - intros [= <-]. auto.
  - intros H. apply float_of_int_raises in H. auto.
  - destruct (float_of_string s); [discriminate|]. intros [= <-]. auto.
Qed.

Lemma float_never_divides (v : pyval) : float_ v <> Raise ZeroDivisionError.
Proof.
  intros H. apply float_raises in H as [[H | [H | H]] | H]; discriminate.
Qed.

Lemma entry_rate_raises (d : Dict) (e : exn) :
  entry_rate d = Raise e -> caught e \/ e = OverflowError.
Proof.
  unfold entry_rate, getitem. destruct (d !! "fundingRate") as [v|]; simpl.
  - apply float_raises.
  - intros [= <-]. unfold caught. auto.
Qed.

(** What [mapM] raises is what its first failing element raises. *)
Lemma mapM_result_Raise {A B} (f : A -> result B) (l : list A) (e : exn) :
  mapM f l = Raise e <->
  exists i x, l !! i = Some x /\ f x = Raise e
    /\ forall j y, (j < i)%nat -> l !! j = Some y -> is_ok (f y) = true.
Proof.
  induction l as [|x l IH]; simpl.
  - split; [discriminate|]. intros (i & y & Hi & _). destruct i; discriminate.
  - destruct (f x) as [b|e'] eqn:Hx; simpl.
    + destruct (mapM f l) as [k|e'] eqn:Hl; simpl.
      * split; [discriminate|]. intros (i & y & Hi & Hy & Hlt).
        destruct i as [|i]; simpl in Hi; [congruence|].
        assert (Ok k = Raise e :> result (list B)) as Habs; [|discriminate].
        apply IH. exists i, y. split; [exact Hi|]. split; [exact Hy|].
        intros j z Hj Hz. apply (Hlt (S j) z); [lia|exact Hz].
      * split.
        -- intros [= <-]. destruct (proj1 IH eq_refl) as (i & y & Hi & Hy & Hlt).
           exists (S i), y. split; [exact Hi|]. split; [exact Hy|].
           intros [|j] z Hj Hz; simpl in Hz.
           ++ injection Hz as <-. rewrite Hx. reflexivity.
           ++ apply (Hlt j z); [lia|exact Hz].
        -- intros (i & y & Hi & Hy & Hlt).
           destruct i as [|i]; simpl in Hi; [congruence|].
           apply IH. exists i, y. split; [exact Hi|]. split; [exact Hy|].
           intros j z Hj Hz. apply (Hlt (S j) z); [lia|exact Hz].
    + split.
      * intros [= <-]. exists 0%nat, x. split; [reflexivity|]. split; [exact Hx|].
        intros j y Hj. lia.
      * intros (i & y & Hi & Hy & Hlt). destruct i as [|i]; simpl in Hi.
        -- congruence.
        -- specialize (Hlt 0%nat x ltac:(lia) eq_refl). rewrite Hx in Hlt. discriminate.
Qed.

Lemma mapM_entry_rate_raises (h : list Dict) (e : exn) :
  mapM entry_rate h = Raise e -> caught e \/ e = OverflowError.
Proof.
  intros H. apply mapM_result_Raise in H as (i & d & _ & Hd & _).
  eapply entry_rate_raises, Hd.
Qed.

(** C10, as stated, fails: the function is not total.  An entry
    without a rate, or with a rate that is not a number, makes it
    raise. *)
Lemma C10_entry_without_rate_raises :
  calculate_average_funding_rate [∅] = Raise KeyError
  /\ calculate_average_funding_rate [Scenario.entry "abc"] = Raise ValueError
  /\ calculate_average_funding_rate [{[ "fundingRate" := PNone ]}] = Raise TypeError.
Proof. repeat split; vm_compute; reflexivity. Qed.

(** C10, amended. [calculate_average_funding_rate] returns 0.0 for the
    empty history, without dividing, and never raises
    [ZeroDivisionError] whatever the list: the division is only reached
    with a non-zero length.  It returns a number exactly when every
    entry carries a rate that [float] accepts; otherwise it raises what
    the first entry that does not makes [entry["fundingRate"]] or
    [float] raise: [KeyError], [ValueError], [TypeError] or
    [OverflowError]. *)
Theorem C10_average_never_divides_by_zero :
  calculate_average_funding_rate [] = Ok 0%float
  /\ (forall h : list Dict,
        calculate_average_funding_rate h <> Raise ZeroDivisionError)
  /\ (forall h : list Dict,
        is_ok (calculate_average_funding_rate h) = is_ok (mapM entry_rate h))
  /\ (forall (h : list Dict) (rates : list float),
        mapM entry_rate h = Ok rates ->
        exists q, calculate_average_funding_rate h = Ok q)
  /\ (forall (h : list Dict) (e : exn),
        calculate_average_funding_rate h = Raise e <->
        exists i d, h !! i = Some d /\ entry_rate d = Raise e
          /\ forall j y, (j < i)%nat -> h !! j = Some y -> is_ok (entry_rate y) = true)
  /\ (forall (h : list Dict) (e : exn),
        calculate_average_funding_rate h = Raise e -> caught e \/ e = OverflowError).
Proof.
  split; [reflexivity|]. split; [|split; [|split; [|split]]].
  - intros h H. apply calculate_average_Raise, mapM_entry_rate_raises in H.
    destruct H as [[H | [H | H]] | H]; discriminate.
  - intros h. destruct (mapM entry_rate h) as [rates|e] eqn:Hr.
    + destruct h as [|d h]; [reflexivity|].
      rewrite (calculate_average_Ok _ rates); [reflexivity|congruence|exact Hr].
    + apply calculate_average_Raise in Hr. rewrite Hr. reflexivity.
  - intros h rates Hr. destruct h as [|d h]; [eexists; reflexivity|].
    eexists. apply (calculate_average_Ok _ rates); [congruence|exact Hr].
  - intros h e. rewrite calculate_average_Raise. apply mapM_result_Raise.
  - intros h e H. eapply mapM_entry_rate_raises, calculate_average_Raise, H.
Qed.

(** ** One instrument: [process_coin] *)

Lemma lift_bind_run {A B} (f : A -> M B) (r : result A) (w : World) :
  (lift r ≫= f) w = match r with Ok a => f a w | Raise e => (Raise e, w) end.
Proof. destruct r; reflexivity. Qed.

Lemma mret_run {A} (a : A) (w : World) : (mret a : M A) w = (Ok a, w).
Proof. reflexivity. Qed.

(** Runs the computation in [H] step by step, naming each result. *)
Ltac run_in H :=
  repeat match type of H with
  | context [(lift ?r ≫= ?f) ?w] =>
      rewrite (lift_bind_run f r w) in H; destruct r eqn:?; simplify_eq
  | context [(?m ≫= ?f) ?w] =>
      rewrite (M_bind_run f m w) in H;
      destruct (m w) as [[?|?] ?] eqn:?; simplify_eq
  | context [mret ?a ?w] => rewrite (mret_run a w) in H; simplify_eq
  | context [if ?b then _ else _] => destruct b eqn:?; simplify_eq
  end.

Lemma float_in_range (d : Dict) (k s : string) :
  ints_in_range d -> float_ (dict_get d k (PStr s)) <> Raise OverflowError.
Proof.
  intros Hd. unfold dict_get. destruct (d !! k) as [v|] eqn:Hk.
  - destruct v; simpl; try discriminate.
    + specialize (Hd k _ Hk). simpl in Hd.
      destruct (float_of_int z); [discriminate|discriminate Hd].
    + destruct (float_of_string s0); discriminate.
  - simpl. destruct (float_of_string s); discriminate.
Qed.




Section ProcessCoin.
Variable up : Upstream.
Variables min_oi min_vol : float.
Variables st en : Z.

Local Abbreviation process_coin := (process_coin up min_oi min_vol st en).
Local Abbreviation process_coin_try := (process_coin_try up min_oi min_vol st en).

(** Whatever the [try] block raises is one of the three caught
    exceptions, or the [OverflowError] of an integer out of range. *)
Lemma process_coin_try_raises name ctx w e w' :
  process_coin_try name ctx w = (Raise e, w') -> caught e \/ e = OverflowError.
Proof.
  intros H. unfold HyperliquidService.process_coin_try in H. run_in H;
    first [ eapply float_raises; eassumption
          | eapply mapM_entry_rate_raises; eassumption
          | eapply mapM_entry_rate_raises, calculate_average_Raise; eassumption
          | rewrite fetch_funding_history_run in *; discriminate ].
Qed.

(** The only exception that leaves [process_coin]. *)
Lemma process_coin_raises name ctx w e w' :
  process_coin name ctx w = (Raise e, w') -> e = OverflowError.
Proof.
  unfold HyperliquidService.process_coin. rewrite try_except_run.
  destruct (process_coin_try name ctx w) as [[r|e1] w1] eqn:Ht; [discriminate|].
  apply process_coin_try_raises in Ht as [[-> | [-> | ->]] | ->]; simpl;
    rewrite ?mret_run; unfold raise; congruence.
Qed.



(** What is known of an instrument that was appended. *)
Lemma process_coin_Some name ctx w c w' :
  process_coin name ctx w = (Ok (Some c), w') ->
  exists oi mp vol cur h rates avg,
    float_ (dict_get ctx "openInterest" (PStr "0")) = Ok oi
    /\ float_ (dict_get ctx "markPx" (PStr "0")) = Ok mp
    /\ float_ (dict_get ctx "dayNtlVlm" (PStr "0")) = Ok vol
    /\ float_ (dict_get ctx "funding" (PStr "0")) = Ok cur
    /\ flt (fmul oi mp) min_oi = false
    /\ flt vol min_vol = false
    /\ fetch_funding_history up name st (Some en) w = (Ok h, w')
    /\ h <> []
    /\ mapM entry_rate h = Ok rates
    /\ calculate_average_funding_rate h = Ok avg
    /\ c = scored_coin name oi mp vol cur h rates avg.
Proof.
  intros H. unfold HyperliquidService.process_coin in H.
  rewrite try_except_run in H.
  destruct (process_coin_try name ctx w) as [[r|e] w1] eqn:Ht.
  - simplify_eq. unfold HyperliquidService.process_coin_try in Ht.
    run_in Ht.
    apply orb_false_elim in Heqb as [? ?].
    do 7 eexists. repeat split; try eassumption. congruence.
  - apply process_coin_try_raises in Ht as [[-> | [-> | ->]] | ->]; simpl in H;
      rewrite ?mret_run in H; discriminate.
Qed.


(** The state after one instrument: the collection is untouched and
    at most the instrument's own history request was sent. *)
Lemma process_coin_world name ctx w r w' :
  process_coin name ctx w = (r, w') ->
  db w' = db w
  /\ (posts w' = posts w
      \/ posts w' = (posts w ++ [funding_payload name st (Some en)])%list).
Proof.
  intros H. unfold HyperliquidService.process_coin in H. rewrite try_except_run in H.
  assert (forall r1 w1, process_coin_try name ctx w = (r1, w1) ->
          db w1 = db w /\ (posts w1 = posts w
            \/ posts w1 = (posts w ++ [funding_payload name st (Some en)])%list)) as Htry.
  { intros r1 w1 Ht. unfold HyperliquidService.process_coin_try in Ht.
    run_in Ht; auto;
      try (rewrite fetch_funding_history_run in Heqp; simplify_eq; simpl; auto).
    all: destruct (let '(_, _) := funding_reply _ _ in _) as [|? ?];
      run_in Ht; simpl; auto. }
  destruct (process_coin_try name ctx w) as [[a|e] w1] eqn:Ht.
  - simplify_eq. eapply Htry. reflexivity.
  - destruct (Htry _ _ eq_refl) as [Hdb Hposts].
    destruct e; simpl in H; rewrite ?mret_run in H; unfold raise in H;
      simplify_eq; auto.
Qed.
End ProcessCoin.


(** ** The loop over the universe *)

Lemma funding_payload_type c st en : is_funding_request (funding_payload c st en).
Proof.
  unfold is_funding_request, funding_payload.
  destruct en as [e|]; [case_bool_decide|]; reflexivity.
Qed.

Section RankLoop.
Variable up : Upstream.
Variables min_oi min_vol : float.
Variables st en : Z.

Local Abbreviation process_coin := (process_coin up min_oi min_vol st en).
Local Abbreviation rank_loop := (rank_loop up min_oi min_vol st en).

Lemma rank_loop_skip contexts i meta u acc w :
  (length contexts <= i)%nat ->
  rank_loop contexts i (meta :: u) acc w = rank_loop contexts (S i) u acc w.
Proof.
  intros Hi. cbn [HyperliquidService.rank_loop].
  rewrite bool_decide_eq_true_2 by assumption. reflexivity.
Qed.

Lemma rank_loop_step contexts i meta u acc w ctx :
  contexts !! i = Some ctx ->
  rank_loop contexts i (meta :: u) acc w =
  match meta !! "name" with
  | None => (Raise KeyError, w)
  | Some name =>
      match process_coin name ctx w with
      | (Ok r, w1) =>
          rank_loop contexts (S i) u
            (match r with Some c => acc ++ [c] | None => acc end) w1
      | (Raise e, w1) => (Raise e, w1)
      end
  end.
Proof.
  intros Hctx. cbn [HyperliquidService.rank_loop].
  rewrite bool_decide_eq_false_2
    by (apply lookup_lt_Some in Hctx; lia).
  rewrite lift_bind_run. unfold getitem.
  destruct (meta !! "name") as [name|]; [|reflexivity].
  rewrite lift_bind_run. unfold list_getitem. rewrite Hctx.
  rewrite M_bind_run. reflexivity.
Qed.

(** Past the end of the contexts nothing is looked at any more. *)
Lemma rank_loop_beyond contexts u i acc w :
  (length contexts <= i)%nat -> rank_loop contexts i u acc w = (Ok acc, w).
Proof.
  revert i. induction u as [|meta u IH]; intros i Hi; [reflexivity|].
  rewrite rank_loop_skip by assumption. apply IH. lia.
Qed.



(** What ends the loop early: a paired instrument without a name, or an
    integer out of range. *)
Lemma rank_loop_raises contexts u i acc w e w' :
  rank_loop contexts i u acc w = (Raise e, w') ->
  e = KeyError \/ e = OverflowError.
Proof.
  revert i acc w. induction u as [|meta u IH]; intros i acc w H.
  - discriminate.
  - destruct (decide (length contexts <= i)%nat) as [Hi|Hi].
    + rewrite rank_loop_beyond in H by assumption. discriminate.
    + destruct (lookup_lt_is_Some_2 contexts i) as [ctx Hctx]; [lia|].
      rewrite (rank_loop_step _ _ _ _ _ _ ctx Hctx) in H.
      destruct (meta !! "name") as [name|]; [|left; congruence].
      destruct (process_coin name ctx w) as [[r|e1] w1] eqn:Hp.
      * eapply IH, H.
      * apply process_coin_raises in Hp. right. congruence.
Qed.

(** The coins of the result, in order: those already there, then one
    for each of an increasing sequence of indices. *)
Lemma rank_loop_order universe contexts u i acc w out w' :
  (forall k, u !! k = universe !! (i + k)%nat) ->
  rank_loop contexts i u acc w = (Ok out, w') ->
  exists js new,
    out = (acc ++ new)%list
    /\ Forall2 (appended_at up min_oi min_vol st en universe contexts) js new
    /\ StronglySorted lt js
    /\ Forall (fun j => (i <= j)%nat) js.
Proof.
  revert i acc w. induction u as [|meta u IH]; intros i acc w Hu H.
  - injection H as <- <-. exists [], []. rewrite app_nil_r.
    repeat split; constructor.
  - destruct (decide (length contexts <= i)%nat) as [Hi|Hi].
    + rewrite rank_loop_beyond in H by assumption. injection H as <- <-.
      exists [], []. rewrite app_nil_r. repeat split; constructor.
    + destruct (lookup_lt_is_Some_2 contexts i) as [ctx Hctx]; [lia|].
      rewrite (rank_loop_step _ _ _ _ _ _ ctx Hctx) in H.
      destruct (meta !! "name") as [name|] eqn:Hname; [|discriminate].
      destruct (process_coin name ctx w) as [[r|e] w1] eqn:Hp; [|discriminate].
      apply IH in H as (js & new & -> & Hall & Hsorted & Hge);
        [|intros k; replace (S i + k)%nat with (i + S k)%nat by lia;
          apply (Hu (S k))].
      destruct r as [c|].
      * exists (i :: js), (c :: new). rewrite <- app_assoc. simpl.
        assert (coin c = name) as Hc.
        { apply process_coin_Some in Hp as (?&?&?&?&?&?&?&Hp).
          destruct Hp as (_&_&_&_&_&_&_&_&_&_&->). reflexivity. }
        split; [reflexivity|]. split; [|split].
        -- constructor; [|assumption].
           exists meta, ctx, w, w1. rewrite Hc.
           specialize (Hu 0%nat). rewrite Nat.add_0_r in Hu. simpl in Hu.
           auto.
        -- constructor; [assumption|].
           eapply Forall_impl; [exact Hge|]. simpl. lia.
        -- constructor; [lia|].
           eapply Forall_impl; [exact Hge|]. simpl. lia.
      * exists js, new. repeat split; try assumption.
        eapply Forall_impl; [exact Hge|]. simpl. lia.
Qed.

(** The loop leaves the collection alone and sends only
    funding-history requests. *)
Lemma rank_loop_world contexts u i acc w r w' :
  rank_loop contexts i u acc w = (r, w') ->
  db w' = db w
  /\ exists ps, posts w' = (posts w ++ ps)%list /\ Forall is_funding_request ps.
Proof.
  revert i acc w. induction u as [|meta u IH]; intros i acc w H.
  - injection H as <- <-. split; [reflexivity|].
    exists []. rewrite app_nil_r. split; [reflexivity|constructor].
  - destruct (decide (length contexts <= i)%nat) as [Hi|Hi].
    + rewrite rank_loop_beyond in H by assumption. injection H as <- <-.
      split; [reflexivity|].
      exists []. rewrite app_nil_r. split; [reflexivity|constructor].
    + destruct (lookup_lt_is_Some_2 contexts i) as [ctx Hctx]; [lia|].
      rewrite (rank_loop_step _ _ _ _ _ _ ctx Hctx) in H.
      destruct (meta !! "name") as [name|].
      2:{ injection H as <- <-. split; [reflexivity|].
          exists []. rewrite app_nil_r. split; [reflexivity|constructor]. }
      destruct (process_coin name ctx w) as [r1 w1] eqn:Hp.
      apply process_coin_world in Hp as [Hdb Hposts].
      assert (exists ps1, posts w1 = (posts w ++ ps1)%list
                          /\ Forall is_funding_request ps1) as (ps1 & Hps1 & Hall1).
      { destruct Hposts as [->| ->].
        - exists []. rewrite app_nil_r. split; [reflexivity|constructor].
        - eexists. split; [reflexivity|].
          constructor; [apply funding_payload_type|constructor]. }
      destruct r1 as [r1|e].
      * apply IH in H as (Hdb' & ps & Hps & Hall). split; [congruence|].
        exists (ps1 ++ ps)%list. rewrite Hps, Hps1, app_assoc.
        split; [reflexivity|]. apply Forall_app. auto.
      * injection H as <- <-. split; [assumption|]. eauto.
Qed.
End RankLoop.

(** ** The order of floats *)

Lemma key_compare_Lt (a b : Z * Z * Z) : key_compare a b = Lt <-> key_lt a b.
Proof.
  destruct a as [[a1 a2] a3], b as [[b1 b2] b3]. unfold key_compare, key_lt.
  destruct (Z.compare_spec a1 b1), (Z.compare_spec a2 b2), (Z.compare_spec a3 b3);
    split; intros; try discriminate; try reflexivity; lia.
Qed.

Lemma key_compare_Gt (a b : Z * Z * Z) : key_compare a b = Gt <-> key_lt b a.
Proof.
  destruct a as [[a1 a2] a3], b as [[b1 b2] b3]. unfold key_compare, key_lt.
  destruct (Z.compare_spec a1 b1), (Z.compare_spec a2 b2), (Z.compare_spec a3 b3);
    split; intros; try discriminate; try reflexivity; lia.
Qed.

Lemma key_compare_Eq (a b : Z * Z * Z) : key_compare a b = Eq <-> a = b.
Proof.
  destruct a as [[a1 a2] a3], b as [[b1 b2] b3]. unfold key_compare.
  destruct (Z.compare_spec a1 b1), (Z.compare_spec a2 b2), (Z.compare_spec a3 b3);
    split; intros Hab; try discriminate; try reflexivity; try congruence;
    injection Hab; intros; lia.
Qed.

Lemma key_lt_irrefl (a : Z * Z * Z) : ~ key_lt a a.
Proof. destruct a as [[a1 a2] a3]. unfold key_lt. lia. Qed.

Lemma key_lt_trans (a b c : Z * Z * Z) : key_lt a b -> key_lt b c -> key_lt a c.
Proof.
  destruct a as [[a1 a2] a3], b as [[b1 b2] b3], c as [[c1 c2] c3].
  unfold key_lt. lia.
Qed.

Lemma key_lt_total (a b : Z * Z * Z) : key_lt a b \/ a = b \/ key_lt b a.
Proof.
  destruct (key_compare a b) eqn:E.
  - right. left. apply key_compare_Eq, E.
  - left. apply key_compare_Lt, E.
  - right. right. apply key_compare_Gt, E.
Qed.

(** Floats compare as their keys do; NaN compares with nothing. *)
Lemma SFcompare_fkey (x y : float) :
  SFcompare (Prim2SF x) (Prim2SF y) =
  match fkey x, fkey y with
  | Some kx, Some ky => Some (key_compare kx ky)
  | _, _ => None
  end.
Proof.
  unfold fkey.
  destruct (Prim2SF x) as [sx|sx| |sx mx ex], (Prim2SF y) as [sy|sy| |sy my ey];
    try destruct sx; try destruct sy; try reflexivity.
  cbn [SFcompare]. unfold key_compare. rewrite Z.compare_refl, Z.compare_opp.
  rewrite (Z.compare_antisym ex ey).
  destruct (ex ?= ey); reflexivity.
Qed.

Lemma flt_true (x y : float) :
  flt x y = true <->
  exists kx ky, fkey x = Some kx /\ fkey y = Some ky /\ key_lt kx ky.
Proof.
  unfold flt. rewrite FloatAxioms.ltb_spec. unfold SFltb. rewrite SFcompare_fkey.
  destruct (fkey x) as [kx|], (fkey y) as [ky|].
  - destruct (key_compare kx ky) eqn:E.
    + split; [discriminate|]. intros (? & ? & [= <-] & [= <-] & H).
      apply key_compare_Lt in H. congruence.
    + split; [|reflexivity]. intros _. apply key_compare_Lt in E. eauto.
    + split; [discriminate|]. intros (? & ? & [= <-] & [= <-] & H).
      apply key_compare_Lt in H. congruence.
  - split; [discriminate|]. intros (? & ? & _ & ? & _). discriminate.
  - split; [discriminate|]. intros (? & ? & ? & _). discriminate.
  - split; [discriminate|]. intros (? & ? & ? & _). discriminate.
Qed.

Lemma fle_true (x y : float) :
  (x <=? y)%float = true <->
  exists kx ky, fkey x = Some kx /\ fkey y = Some ky /\ (key_lt kx ky \/ kx = ky).
Proof.
  rewrite FloatAxioms.leb_spec. unfold SFleb. rewrite SFcompare_fkey.
  destruct (fkey x) as [kx|], (fkey y) as [ky|].
  - destruct (key_compare kx ky) eqn:E.
    + split; [|reflexivity]. intros _. apply key_compare_Eq in E. eauto 6.
    + split; [|reflexivity]. intros _. apply key_compare_Lt in E. eauto 6.
    + split; [discriminate|]. intros (? & ? & [= <-] & [= <-] & [H | H]).
      * apply key_compare_Lt in H. congruence.
      * apply key_compare_Eq in H. congruence.
  - split; [discriminate|]. intros (? & ? & _ & ? & _). discriminate.
  - split; [discriminate|]. intros (? & ? & ? & _). discriminate.
  - split; [discriminate|]. intros (? & ? & ? & _). discriminate.
Qed.

Lemma feq_true (x y : float) :
  (x =? y)%float = true <-> exists k, fkey x = Some k /\ fkey y = Some k.
Proof.
  rewrite FloatAxioms.eqb_spec. unfold SFeqb. rewrite SFcompare_fkey.
  destruct (fkey x) as [kx|], (fkey y) as [ky|].
  - destruct (key_compare kx ky) eqn:E.
    + split; [|reflexivity]. intros _. apply key_compare_Eq in E as ->. eauto.
    + split; [discriminate|]. intros (k & Hk1 & Hk2). simplify_eq.
      rewrite (proj2 (key_compare_Eq k k) eq_refl) in E. discriminate.
    + split; [discriminate|]. intros (k & Hk1 & Hk2). simplify_eq.
      rewrite (proj2 (key_compare_Eq k k) eq_refl) in E. discriminate.
  - split; [discriminate|]. intros (? & _ & ?). discriminate.
  - split; [discriminate|]. intros (? & ? & _). discriminate.
  - split; [discriminate|]. intros (? & ? & _). discriminate.
Qed.

(** A float is NaN exactly when it has no place in the order. *)
Lemma is_nan_false (x : float) : is_nan x = false <-> is_Some (fkey x).
Proof.
  unfold is_nan. rewrite negb_false_iff, feq_true. split.
  - intros (k & Hk & _). eauto.
  - intros [k Hk]. eauto.
Qed.

(** Among numbers, what is not below is at or above. *)
Lemma flt_false_fle (x y : float) :
  is_nan x = false -> is_nan y = false ->
  flt x y = false -> (y <=? x)%float = true.
Proof.
  intros [kx Hx]%is_nan_false [ky Hy]%is_nan_false Hlt.
  apply fle_true. exists ky, kx. split; [exact Hy|]. split; [exact Hx|].
  destruct (key_lt_total kx ky) as [H | [H | H]]; [|auto..].
  exfalso. assert (flt x y = true) as Ht by (apply flt_true; eauto).
  congruence.
Qed.

(** At or above is not below, NaN or not. *)
Lemma fle_flt_false (x y : float) : (y <=? x)%float = true -> flt x y = false.
Proof.
  intros (ky & kx & Hy & Hx & Hle)%fle_true.
  destruct (flt x y) eqn:E; [|reflexivity].
  apply flt_true in E as (kx' & ky' & Hx' & Hy' & Hlt). simplify_eq.
  destruct Hle as [Hle | ->].
  - destruct (key_lt_irrefl _ (key_lt_trans _ _ _ Hlt Hle)).
  - destruct (key_lt_irrefl _ Hlt).
Qed.

Lemma flt_fle (x y : float) : flt x y = true -> (x <=? y)%float = true.
Proof.
  intros (kx & ky & Hx & Hy & Hlt)%flt_true. apply fle_true. eauto 6.
Qed.

Lemma fle_trans (x y z : float) :
  (x <=? y)%float = true -> (y <=? z)%float = true -> (x <=? z)%float = true.
Proof.
  intros (kx & ky & Hx & Hy & Hxy)%fle_true (ky' & kz & Hy' & Hz & Hyz)%fle_true.
  simplify_eq. apply fle_true. exists kx, kz. split; [exact Hx|]. split; [exact Hz|].
  destruct Hxy as [Hxy | ->]; [|exact Hyz].
  destruct Hyz as [Hyz | <-]; [|auto]. left. eapply key_lt_trans; eassumption.
Qed.


(** The two zeros are one point of the order. *)
Lemma fkey_zero (x : float) :
  (exists s, Prim2SF x = S754_zero s) <-> fkey x = Some (0, 0, 0).
Proof.
  unfold fkey. split.
  - intros [s ->]. reflexivity.
  - destruct (Prim2SF x) as [s|[]| |[] m e]; try discriminate. eauto.
Qed.

Lemma flt_same_key (x x' y : float) :
  fkey x = fkey x' -> flt x y = flt x' y.
Proof.
  intros Hk. destruct (flt x y) eqn:E.
  - symmetry. apply flt_true in E. apply flt_true. rewrite <- Hk. exact E.
  - destruct (flt x' y) eqn:E'; [|reflexivity].
    apply flt_true in E'. rewrite <- Hk in E'. apply flt_true in E'. congruence.
Qed.

(** [int(x)] returns for the finite floats, and only for them. *)
Lemma int_of_float_Ok (x : float) (z : Z) :
  int_of_float x = Ok z <-> is_finite x = true /\ z = trunc x.
Proof.
  unfold int_of_float, is_finite. destruct (is_nan x), (is_infinity x); simpl;
    split; try discriminate; try (intros [? _]; discriminate).
  - intros [= <-]. auto.
  - intros [_ ->]. reflexivity.
Qed.

(** ** The sort *)

Section SortFacts.
Context {A : Type} (key : A -> float).

Lemma insert_desc_Permutation (x : A) (l : list A) :
  insert_desc key x l ≡ₚ x :: l.
Proof.
  induction l as [|y l IH]; simpl; [reflexivity|].
  destruct (flt (key x) (key y)); [|reflexivity].
  rewrite IH. apply Permutation_swap.
Qed.

Lemma sort_desc_Permutation (l : list A) : sort_desc key l ≡ₚ l.
Proof.
  induction l as [|x l IH]; simpl; [reflexivity|].
  rewrite insert_desc_Permutation, IH. reflexivity.
Qed.

(** With no NaN among the keys, insertion keeps a list in order. *)
Lemma insert_desc_sorted (x : A) (l : list A) :
  is_nan (key x) = false ->
  Forall (fun a => is_nan (key a) = false) l ->
  StronglySorted (desc key) l -> StronglySorted (desc key) (insert_desc key x l).
Proof.
  intros Hx. induction l as [|y l IH]; intros Hn Hs; simpl.
  - repeat constructor.
  - apply StronglySorted_inv in Hs as [Hl Hy].
    apply Forall_cons in Hn as [Hny Hn].
    destruct (flt (key x) (key y)) eqn:E.
    + constructor; [apply IH; assumption|].
      rewrite insert_desc_Permutation. constructor; [|exact Hy].
      unfold desc. apply flt_fle, E.
    + apply flt_false_fle in E; [|assumption..]. constructor.
      * constructor; assumption.
      * constructor; [exact E|].
        eapply Forall_impl; [exact Hy|]. unfold desc. intros z Hz.
        eapply fle_trans; eassumption.
Qed.

Lemma sort_desc_sorted (l : list A) :
  Forall (fun a => is_nan (key a) = false) l ->
  StronglySorted (desc key) (sort_desc key l).
Proof.
  induction l as [|x l IH]; intros Hn; simpl; [constructor|].
  apply Forall_cons in Hn as [Hx Hn].
  apply insert_desc_sorted; [exact Hx| |apply IH, Hn].
  rewrite sort_desc_Permutation. exact Hn.
Qed.


End SortFacts.

Lemma slice_to_nonneg {A} (l : list A) (n : Z) :
  0 <= n -> slice_to l n = take (Z.to_nat n) l.
Proof.
  intros Hn. unfold slice_to.
  destruct (0 <=? n) eqn:E; [reflexivity|]. apply Z.leb_gt in E. lia.
Qed.

Lemma slice_to_subseteq {A} (l : list A) (n : Z) : slice_to l n ⊆ l.
Proof.
  unfold slice_to. destruct (0 <=? n); apply list.sublist_subseteq, sublist_take.
Qed.

(** ** The whole run *)

Lemma window_Ok (t days_back st en : Z) :
  window t days_back = Ok (st, en) <->
  window_ok t days_back
  /\ st = window_start t days_back /\ en = window_end t.
Proof.
  unfold window, window_ok, window_start, window_end, timestamp_ms, timedelta,
    datetime_sub.
  split.
  - intros H.
    apply result_bind_Ok in H as (en' & [He ->]%int_of_float_Ok & H).
    apply result_bind_Ok in H as (delta & Hd & H).
    destruct (bool_decide_reflect (-999999999 <= days_back <= 999999999))
      as [Hdays|_]; [|discriminate].
    injection Hd as <-.
    apply result_bind_Ok in H as (from & Hf & H).
    destruct (bool_decide_reflect
                (DATETIME_MIN <= t - days_back * MICROS_PER_DAY <= DATETIME_MAX))
      as [Hrange|_]; [|discriminate].
    injection Hf as <-.
    apply result_bind_Ok in H as (st' & [Hs ->]%int_of_float_Ok & H).
    injection H as <- <-. auto.
  - intros ((Hdays & Hrange & He & Hs) & -> & ->).
    rewrite (proj2 (int_of_float_Ok _ _) (conj He eq_refl)). simpl.
    rewrite bool_decide_eq_true_2 by exact Hdays. simpl.
    rewrite bool_decide_eq_true_2 by exact Hrange. simpl.
    rewrite (proj2 (int_of_float_Ok _ _) (conj Hs eq_refl)). reflexivity.
Qed.


Lemma get_top_run up min_oi min_vol days_back top_n w :
  get_top_funding_rate_coins up min_oi min_vol days_back top_n w =
  let w0 := sent up meta_payload w in
  if bool_decide (meta_status up ≠ 200) then
    (Raise (ApiRequestFailed (meta_status up)), w0)
  else
    match window (clock w0) days_back with
    | Ok (start_time, end_time) =>
        match rank_loop up min_oi min_vol start_time end_time
                (meta_contexts up) 0 (meta_universe up) [] w0 with
        | (Ok eligible, w1) =>
            (Ok (slice_to (sort_desc annualized_funding_rate eligible) top_n), w1)
        | (Raise e, w1) => (Raise e, w1)
        end
    | Raise e => (Raise e, w0)
    end.
Proof.
  unfold get_top_funding_rate_coins, fetch_meta_and_contexts, window, sent.
  rewrite M_bind_run, M_bind_run. cbn [post].
  case_bool_decide; [reflexivity|].
  rewrite mret_run. cbn iota beta.
  rewrite (M_bind_run _ now). cbn [now clock].
  rewrite lift_bind_run.
  destruct (timestamp_ms _) as [end_time|e]; [|reflexivity]. simpl.
  rewrite (M_bind_run _ now). cbn [now clock].
  rewrite lift_bind_run.
  destruct (timedelta days_back) as [delta|e]; [|reflexivity]. simpl.
  rewrite lift_bind_run.
  destruct (datetime_sub _ delta) as [from|e]; [|reflexivity]. simpl.
  rewrite lift_bind_run.
  destruct (timestamp_ms from) as [start_time|e]; [|reflexivity]. simpl.
  rewrite M_bind_run.
  destruct (rank_loop _ _ _ _ _ _ _ _ _ _) as [[eligible|e] w1]; reflexivity.
Qed.

(** A run that returns: the bulk request was answered with 200, the
    window was computed, and the loop returned the coins that are then
    sorted and cut. *)
Lemma get_top_Ok up min_oi min_vol days_back top_n w out w' :
  get_top_funding_rate_coins up min_oi min_vol days_back top_n w = (Ok out, w') ->
  meta_status up = 200
  /\ window_ok (clock (sent up meta_payload w)) days_back
  /\ exists eligible,
       rank_loop up min_oi min_vol
         (window_start (clock (sent up meta_payload w)) days_back)
         (window_end (clock (sent up meta_payload w)))
         (meta_contexts up) 0 (meta_universe up) [] (sent up meta_payload w)
       = (Ok eligible, w')
       /\ out = slice_to (sort_desc annualized_funding_rate eligible) top_n.
Proof.
  rewrite get_top_run. cbv zeta. case_bool_decide as Hs; [discriminate|].
  destruct (window _ _) as [[st en]|e] eqn:Hw; [|discriminate].
  apply window_Ok in Hw as (Hok & -> & ->).
  destruct (rank_loop _ _ _ _ _ _ _ _ _ _) as [[eligible|e] w1] eqn:Hloop;
    [|discriminate].
  intros [= <- <-]. split; [|split; [exact Hok|eauto]].
  destruct (decide (meta_status up = 200)); [assumption|contradiction].
Qed.


(** The coins a run returns were appended by its loop, for increasing
    indices of the universe. *)
Lemma get_top_eligible up min_oi min_vol days_back top_n w out w' :
  get_top_funding_rate_coins up min_oi min_vol days_back top_n w = (Ok out, w') ->
  exists eligible js,
    out = slice_to (sort_desc annualized_funding_rate eligible) top_n
    /\ Forall2 (appended_at up min_oi min_vol
                  (window_start (clock (sent up meta_payload w)) days_back)
                  (window_end (clock (sent up meta_payload w)))
                  (meta_universe up) (meta_contexts up)) js eligible
    /\ StronglySorted lt js.
Proof.
  intros (_ & _ & eligible & Hloop & ->)%get_top_Ok.
  eapply rank_loop_order in Hloop as (js & new & -> & Hall & Hsorted & _);
    [|intros k; reflexivity].
  exists new, js. auto.
Qed.

Lemma get_top_elem up min_oi min_vol days_back top_n w out w' c :
  get_top_funding_rate_coins up min_oi min_vol days_back top_n w = (Ok out, w') ->
  c ∈ out ->
  exists j, appended_at up min_oi min_vol
              (window_start (clock (sent up meta_payload w)) days_back)
              (window_end (clock (sent up meta_payload w)))
              (meta_universe up) (meta_contexts up) j c.
Proof.
  intros H Hc. apply get_top_eligible in H as (eligible & js & -> & Hall & _).
  apply slice_to_subseteq in Hc.
  rewrite sort_desc_Permutation in Hc.
  apply list_elem_of_lookup in Hc as [n Hn].
  destruct (Forall2_lookup_r _ _ _ _ _ Hall Hn) as (j & _ & Hj). eauto.
Qed.



(** ** The claims about the ranking pipeline *)







(** ** Averages and order *)









(** ** The refresh *)

Lemma meta_payload_not_funding (p : Dict) : is_funding_request p -> p <> meta_payload.
Proof. intros Hp ->. unfold is_funding_request in Hp. discriminate Hp. Qed.

Lemma refresh_count_app (w : World) (ps : list Dict) (dbs : list Doc) (t : Z) :
  Forall is_funding_request ps ->
  refresh_count {| db := dbs; clock := t; posts := posts w ++ meta_payload :: ps |}
  = S (refresh_count w).
Proof.
  intros Hps. unfold refresh_count. cbn [posts].
  rewrite filter_app, filter_cons_True by reflexivity.
  rewrite length_app. cbn [length].
  replace (filter (fun p : Dict => p = meta_payload) ps) with (@nil Dict); [simpl; lia|].
  symmetry. induction Hps as [|p ps Hp _ IH]; [reflexivity|].
  rewrite filter_cons_False by (apply meta_payload_not_funding, Hp). exact IH.
Qed.

(** A run leaves the collection alone and sends one bulk request,
    followed by funding-history requests only. *)
Lemma get_top_world up min_oi min_vol days_back top_n w r w' :
  get_top_funding_rate_coins up min_oi min_vol days_back top_n w = (r, w') ->
  db w' = db w
  /\ exists ps, posts w' = (posts w ++ meta_payload :: ps)%list
               /\ Forall is_funding_request ps.
Proof.
  rewrite get_top_run. cbv zeta. case_bool_decide.
  - intros [= <- <-]. split; [reflexivity|]. exists []. split; [reflexivity|constructor].
  - destruct (window _ _) as [[st en]|e].
    2:{ intros [= <- <-]. split; [reflexivity|].
        exists []. split; [reflexivity|constructor]. }
    destruct (rank_loop _ _ _ _ _ _ _ _ _ _) as [r1 w1] eqn:Hloop.
    apply rank_loop_world in Hloop as (Hdb & ps & Hps & Hall).
    intros Hr. assert (w' = w1) as -> by (destruct r1; congruence).
    split; [exact Hdb|]. exists ps. rewrite Hps. cbn [sent posts].
    rewrite <- app_assoc. auto.
Qed.

Lemma update_run up w :
  update_hyperliquid_data up w =
  match get_top_funding_rate_coins up 10000000 10000000 7 10 w with
  | (Ok cs, w1) =>
      (Ok tt, {| db := [ {| coins := cs; last_updated := clock w1;
                            next_update := clock w1 + MICROS_PER_HOUR |} ];
                 clock := clock w1; posts := posts w1 |})
  | (Raise e, w1) => (Ok tt, w1)
  end.
Proof.
  unfold update_hyperliquid_data. rewrite try_except_run, M_bind_run.
  destruct (get_top_funding_rate_coins up 10000000 10000000 7 10 w)
    as [[cs|e] w1]; reflexivity.
Qed.

(** The refresh never raises. *)
Lemma update_returns up w :
  update_hyperliquid_data up w = (Ok tt, refreshed up w).
Proof.
  unfold refreshed. rewrite update_run.
  destruct (get_top_funding_rate_coins up 10000000 10000000 7 10 w)
    as [[cs|e] w1]; reflexivity.
Qed.

(** A refresh whose bulk request is refused stops there. *)
Lemma update_refused up w :
  meta_status up <> 200 -> refreshed up w = sent up meta_payload w.
Proof.
  intros Hs. unfold refreshed. rewrite update_run, get_top_run. cbv zeta.
  rewrite bool_decide_eq_true_2 by assumption. reflexivity.
Qed.

(** A refresh that succeeds stores a snapshot dated by the clock it
    leaves. *)
Lemma update_succeeded up w cs w1 :
  get_top_funding_rate_coins up 10000000 10000000 7 10 w = (Ok cs, w1) ->
  db (refreshed up w)
  = [ {| coins := cs; last_updated := clock (refreshed up w);
         next_update := clock (refreshed up w) + MICROS_PER_HOUR |} ].
Proof.
  intros H. unfold refreshed. rewrite update_run, H. reflexivity.
Qed.

Lemma refreshed_count up w :
  refresh_count (refreshed up w) = S (refresh_count w).
Proof.
  unfold refreshed. rewrite update_run.
  destruct (get_top_funding_rate_coins up 10000000 10000000 7 10 w)
    as [r w1] eqn:Hrun.
  apply get_top_world in Hrun as (_ & ps & Hps & Hall).
  destruct r as [cs|e]; cbn [snd].
  - rewrite Hps. apply refresh_count_app, Hall.
  - destruct w1 as [d1 t1 p1]. cbn [posts] in Hps. rewrite Hps.
    apply refresh_count_app, Hall.
Qed.

(** ** The read *)

Lemma respond_world c w : snd (respond c w) = w.
Proof.
  destruct c as [d|]; [|reflexivity]. unfold respond.
  rewrite lift_bind_run. destruct (mapM validate_coin (coins d)); reflexivity.
Qed.

Lemma respond_served d cs w :
  mapM validate_coin (coins d) = Ok cs -> respond (Some d) w = (Ok (served d cs), w).
Proof. intros H. unfold respond. rewrite lift_bind_run, H. reflexivity. Qed.

(** The [try] block of the read, step by step: [w1] is the world after
    the first decision, [w2] the world after the staleness check. *)
Lemma read_try_run up force w :
  get_hyperliquid_top_coins_try up force w =
  let w1 := if force || negb (bool_decide (is_Some (head (db w))))
            then refreshed up w else w in
  match head (db w1) with
  | None => (Raise (HTTPException 503), w1)
  | Some _ =>
      let w2 := if stale w1 then refreshed up w1 else w1 in
      respond (head (db w2)) w2
  end.
Proof.
  unfold get_hyperliquid_top_coins_try. rewrite M_bind_run. cbn [find_one].
  rewrite M_bind_run.
  assert ((if force || negb (bool_decide (is_Some (head (db w))))
           then update_hyperliquid_data up ≫= (fun _ => find_one)
           else mret (head (db w))) w
          = (Ok (head (db (if force || negb (bool_decide (is_Some (head (db w))))
                           then refreshed up w else w))),
             if force || negb (bool_decide (is_Some (head (db w))))
             then refreshed up w else w)) as ->.
  { destruct (force || negb (bool_decide (is_Some (head (db w))))); [|reflexivity].
    rewrite M_bind_run, update_returns. reflexivity. }
  cbv zeta.
  set (w1 := if force || negb (bool_decide (is_Some (head (db w))))
             then refreshed up w else w).
  unfold stale. destruct (head (db w1)) as [d|] eqn:Hd; [|reflexivity].
  rewrite M_bind_run. cbn [now]. rewrite M_bind_run.
  case_bool_decide.
  - rewrite M_bind_run, update_returns. reflexivity.
  - rewrite mret_run, Hd. reflexivity.
Qed.

Lemma read_except_world e w : snd (get_hyperliquid_top_coins_except e w) = w.
Proof. destruct e; reflexivity. Qed.

(** The world a read leaves behind. *)
Lemma read_world up force w :
  snd (get_hyperliquid_top_coins up force w) =
  let w1 := if force || negb (bool_decide (is_Some (head (db w))))
            then refreshed up w else w in
  if stale w1 then refreshed up w1 else w1.
Proof.
  unfold get_hyperliquid_top_coins. rewrite try_except_run, read_try_run.
  cbv zeta.
  set (w1 := if force || negb (bool_decide (is_Some (head (db w))))
             then refreshed up w else w).
  unfold stale. destruct (head (db w1)) as [d|] eqn:Hd; [|reflexivity].
  fold (stale w1).
  set (w2 := if bool_decide _ then refreshed up w1 else w1).
  pose proof (respond_world (head (db w2)) w2) as Hw.
  destruct (respond (head (db w2)) w2) as [[r|e] w3]; cbn [snd] in Hw; subst w3.
  - reflexivity.
  - apply read_except_world.
Qed.

Lemma refreshed_refused_db up w :
  meta_status up <> 200 -> db (refreshed up w) = db w.
Proof. intros Hs. rewrite update_refused by assumption. reflexivity. Qed.

(** ** The claims about the refresh and the read *)

(** C8, as stated, fails: with the bulk request answered by status 500
    the refresh does not raise, it returns normally. *)
Lemma C8_refused_refresh_returns_normally :
  meta_status Scenario.exchange_down = 500
  /\ fst (update_hyperliquid_data Scenario.exchange_down Scenario.world_stale) = Ok tt.
Proof. split; vm_compute; reflexivity. Qed.

(** C8, amended. When the bulk request is answered by a status other
    than 200, [fetch_meta_and_contexts] raises and so does
    [get_top_funding_rate_coins]; [update_hyperliquid_data] catches the
    exception and returns, having sent that one request and neither
    deleted from nor written to the collection. *)
Theorem C8_refused_fetch_leaves_the_store (up : Upstream) (w : World) :
  meta_status up <> 200 ->
  fst (fetch_meta_and_contexts up w) = Raise (ApiRequestFailed (meta_status up))
  /\ (forall min_oi min_vol days_back top_n,
        fst (get_top_funding_rate_coins up min_oi min_vol days_back top_n w)
        = Raise (ApiRequestFailed (meta_status up)))
  /\ fst (update_hyperliquid_data up w) = Ok tt
  /\ db (snd (update_hyperliquid_data up w)) = db w
  /\ posts (snd (update_hyperliquid_data up w)) = (posts w ++ [meta_payload])%list.
Proof.
  intros Hs. split; [|split; [|split; [|split]]].
  - unfold fetch_meta_and_contexts. rewrite M_bind_run. cbn [post].
    rewrite bool_decide_eq_true_2 by assumption. reflexivity.
  - intros min_oi min_vol days_back top_n. rewrite get_top_run. cbv zeta.
    rewrite bool_decide_eq_true_2 by assumption. reflexivity.
  - rewrite update_returns. reflexivity.
  - apply refreshed_refused_db, Hs.
  - fold (refreshed up w). rewrite update_refused by assumption. reflexivity.
Qed.

Lemma C8_witness :
  db (snd (update_hyperliquid_data Scenario.exchange_down Scenario.world_stale))
  = [Scenario.old_doc].
Proof.
  destruct (C8_refused_fetch_leaves_the_store Scenario.exchange_down
              Scenario.world_stale ltac:(vm_compute; discriminate))
    as (_ & _ & _ & Hdb & _).
  exact Hdb.
Defined.

(** C1, as stated, fails: with the exchange refusing the bulk request
    and a stored snapshot two hours old, a read, forced or not, answers
    with a successful response that carries the old snapshot and its
    old timestamps. *)
Lemma C1_stale_snapshot_served_after_failed_refresh :
  meta_status Scenario.exchange_down = 500
  /\ stale Scenario.world_stale = true
  /\ fst (get_hyperliquid_top_coins Scenario.exchange_down true Scenario.world_stale)
     = Ok (served Scenario.old_doc [Scenario.btc_response_coin])
  /\ fst (get_hyperliquid_top_coins Scenario.exchange_down false Scenario.world_stale)
     = Ok (served Scenario.old_doc [Scenario.btc_response_coin]).
Proof. repeat split; vm_compute; reflexivity. Qed.

(** C1, amended. When the exchange refuses the bulk request, every
    refresh a read invokes fails inside [update_hyperliquid_data], which
    absorbs the error; the read leaves the collection as it was and
    answers from it: with no snapshot stored it raises HTTP 503, and
    with a snapshot stored it returns the successful response built
    from that snapshot, stale or not. *)
Theorem C1_failed_refresh_answers_from_the_store
    (up : Upstream) (force_refresh : bool) (w : World) :
  meta_status up <> 200 ->
  db (snd (get_hyperliquid_top_coins up force_refresh w)) = db w
  /\ (db w = [] ->
      fst (get_hyperliquid_top_coins up force_refresh w) = Raise (HTTPException 503))
  /\ (forall d rest cs,
        db w = d :: rest ->
        mapM validate_coin (coins d) = Ok cs ->
        fst (get_hyperliquid_top_coins up force_refresh w) = Ok (served d cs)).
Proof.
  intros Hs.
  set (w1 := if force_refresh || negb (bool_decide (is_Some (head (db w))))
             then refreshed up w else w).
  set (w2 := if stale w1 then refreshed up w1 else w1).
  assert (db w1 = db w) as Hw1.
  { unfold w1. destruct (_ || _); [apply refreshed_refused_db, Hs|reflexivity]. }
  assert (db w2 = db w) as Hw2.
  { unfold w2. destruct (stale w1); [|exact Hw1].
    rewrite refreshed_refused_db by assumption. exact Hw1. }
  split; [|split].
  - rewrite read_world. exact Hw2.
  - intros Hdb. unfold get_hyperliquid_top_coins.
    rewrite try_except_run, read_try_run. cbv zeta. fold w1.
    rewrite Hw1, Hdb. reflexivity.
  - intros d rest cs Hdb Hcs. unfold get_hyperliquid_top_coins.
    rewrite try_except_run, read_try_run. cbv zeta. fold w1.
    rewrite Hw1, Hdb. cbn [head]. fold w2.
    rewrite Hw2, Hdb. cbn [head].
    rewrite (respond_served d cs) by assumption. reflexivity.
Qed.

Lemma C1_witness :
  fst (get_hyperliquid_top_coins Scenario.exchange_down true Scenario.world_empty)
  = Raise (HTTPException 503).
Proof.
  destruct (C1_failed_refresh_answers_from_the_store Scenario.exchange_down true
              Scenario.world_empty ltac:(vm_compute; discriminate))
    as (_ & Hempty & _).
  exact (Hempty eq_refl).
Defined.

(** C3, as stated, fails in its second half: a forced read against an
    exchange that refuses the bulk request, with a stored snapshot two
    hours old, sends two bulk requests. *)
Lemma C3_forced_read_refreshes_twice :
  refresh_count Scenario.world_stale = 0%nat
  /\ refresh_count
       (snd (get_hyperliquid_top_coins Scenario.exchange_down true Scenario.world_stale))
     = 2%nat.
Proof. split; vm_compute; reflexivity. Qed.

(** C3, amended. Two unforced reads within the validity window of a
    stored snapshot perform no refresh at all, hence at most one; when
    the store is empty and the refresh of the first unforced read
    succeeds, a second unforced read within the hour adds none, one in
    total.  A forced read performs one refresh, and a second one exactly
    when the snapshot found in the store after the first is older than
    an hour; it performs exactly one whenever the first refresh
    succeeds. *)
Theorem C3_refreshes_of_a_read :
  (forall up1 up2 w dt,
     is_Some (head (db w)) ->
     stale w = false ->
     stale (later dt w) = false ->
     let w1 := snd (get_hyperliquid_top_coins up1 false w) in
     let w2 := snd (get_hyperliquid_top_coins up2 false (later dt w1)) in
     refresh_count w2 = refresh_count w
     /\ (refresh_count w2 <= refresh_count w + 1)%nat)
  /\ (forall up1 up2 w cs w0 dt,
        db w = [] ->
        get_top_funding_rate_coins up1 10000000 10000000 7 10 w = (Ok cs, w0) ->
        dt <= MICROS_PER_HOUR ->
        let w1 := snd (get_hyperliquid_top_coins up1 false w) in
        let w2 := snd (get_hyperliquid_top_coins up2 false (later dt w1)) in
        refresh_count w2 = (refresh_count w + 1)%nat)
  /\ (forall up w,
        refresh_count (snd (get_hyperliquid_top_coins up true w))
        = (refresh_count w + 1 + (if stale (refreshed up w) then 1 else 0))%nat)
  /\ (forall up w cs w1,
        get_top_funding_rate_coins up 10000000 10000000 7 10 w = (Ok cs, w1) ->
        refresh_count (snd (get_hyperliquid_top_coins up true w))
        = (refresh_count w + 1)%nat).
Proof.
  assert (forall up w, is_Some (head (db w)) -> stale w = false ->
                       snd (get_hyperliquid_top_coins up false w) = w) as Hfresh.
  { intros up w Hsome Hstale. rewrite read_world. cbv zeta.
    rewrite bool_decide_eq_true_2 by assumption. cbn [orb negb].
    rewrite Hstale. reflexivity. }
  assert (forall up w,
            refresh_count (snd (get_hyperliquid_top_coins up true w))
            = (refresh_count w + 1 + (if stale (refreshed up w) then 1 else 0))%nat)
    as Hforced.
  { intros up w. rewrite read_world. cbv zeta. cbn [orb].
    destruct (stale (refreshed up w)); rewrite !refreshed_count; lia. }
  assert (forall up w cs w1,
            get_top_funding_rate_coins up 10000000 10000000 7 10 w = (Ok cs, w1) ->
            stale (refreshed up w) = false) as Hdated.
  { intros up w cs w1 Hrun. unfold stale.
    rewrite (update_succeeded up w cs w1 Hrun). cbn [head last_updated].
    apply bool_decide_eq_false_2. unfold MICROS_PER_HOUR. lia. }
  split; [|split; [|split]].
  - intros up1 up2 w dt Hsome Hstale Hlater. cbv zeta.
    rewrite (Hfresh up1 w) by assumption.
    rewrite (Hfresh up2 (later dt w)) by assumption.
    unfold refresh_count, later. cbn [posts]. lia.
  - intros up1 up2 w cs w0 dt Hdb Hrun Hdt. cbv zeta.
    assert (snd (get_hyperliquid_top_coins up1 false w) = refreshed up1 w) as ->.
    { rewrite read_world. cbv zeta. rewrite Hdb. cbn [head].
      rewrite bool_decide_eq_false_2 by (intros [? ?]; discriminate).
      cbn [orb negb]. rewrite (Hdated up1 w cs w0 Hrun). reflexivity. }
    rewrite Hfresh.
    + change (refresh_count (later dt (refreshed up1 w)))
        with (refresh_count (refreshed up1 w)).
      rewrite refreshed_count. lia.
    + unfold later. cbn [db]. rewrite (update_succeeded up1 w cs w0 Hrun). eauto.
    + unfold stale, later. cbn [db clock].
      rewrite (update_succeeded up1 w cs w0 Hrun). cbn [head last_updated].
      apply bool_decide_eq_false_2. lia.
  - exact Hforced.
  - intros up w cs w1 Hrun. rewrite Hforced, (Hdated up w cs w1 Hrun). lia.
Qed.

Lemma C3_witness :
  refresh_count
    (snd (get_hyperliquid_top_coins Scenario.exchange_down false
            (later 1000000
               (snd (get_hyperliquid_top_coins Scenario.exchange_down false
                       Scenario.world_fresh)))))
  = refresh_count Scenario.world_fresh.
Proof.
  destruct (proj1 C3_refreshes_of_a_read Scenario.exchange_down Scenario.exchange_down
              Scenario.world_fresh 1000000
              ltac:(vm_compute; eauto) ltac:(vm_compute; reflexivity)
              ltac:(vm_compute; reflexivity))
    as [H _].
  exact H.
Defined.

(** * Further properties of the ranking pipeline *)

Section ProcessCoinShape.
Variable up : Upstream.
Variables min_oi min_vol : float.
Variables st en : Z.

Local Abbreviation process_coin := (process_coin up min_oi min_vol st en).

(** What one instrument does to the world: nothing, or its one
    funding-history request; neither the outcome nor the choice depends
    on the world. *)
Lemma process_coin_shape name ctx :
  exists (r : result (option Coin)) (b : bool),
    forall w, process_coin name ctx w
              = (r, if b then sent up (funding_payload name st (Some en)) w else w).
Proof.
  remember (let '(status, body) := funding_reply up (funding_payload name st (Some en)) in
            if bool_decide (status ≠ 200) then [] else body) as h eqn:Hh.
  assert (forall w, fetch_funding_history up name st (Some en) w
                    = (Ok h, sent up (funding_payload name st (Some en)) w)) as Hfetch
    by (intros w; rewrite Hh; apply fetch_funding_history_run).
  clear Hh.
  unfold HyperliquidService.process_coin, process_coin_try.
  destruct (float_ (dict_get ctx "openInterest" (PStr "0"))) as [oi|e] eqn:Hoi.
  2:{ apply float_raises in Hoi as [[-> | [-> | ->]] | ->];
        [exists (Ok None), false.. | exists (Raise OverflowError), false];
        intros w; rewrite try_except_run, lift_bind_run; reflexivity. }
  destruct (float_ (dict_get ctx "markPx" (PStr "0"))) as [mp|e] eqn:Hmp.
  2:{ apply float_raises in Hmp as [[-> | [-> | ->]] | ->];
        [exists (Ok None), false.. | exists (Raise OverflowError), false];
        intros w; rewrite try_except_run, !lift_bind_run; reflexivity. }
  destruct (float_ (dict_get ctx "dayNtlVlm" (PStr "0"))) as [vol|e] eqn:Hvol.
  2:{ apply float_raises in Hvol as [[-> | [-> | ->]] | ->];
        [exists (Ok None), false.. | exists (Raise OverflowError), false];
        intros w; rewrite try_except_run, !lift_bind_run; reflexivity. }
  destruct (flt (fmul oi mp) min_oi || flt vol min_vol) eqn:Hf.
  { exists (Ok None), false. intros w. rewrite try_except_run, !lift_bind_run, Hf.
    reflexivity. }
  destruct h as [|d h].
  { exists (Ok None), true. intros w.
    rewrite try_except_run, !lift_bind_run, Hf, M_bind_run, Hfetch. reflexivity. }
  destruct (calculate_average_funding_rate (d :: h)) as [avg|e] eqn:Havg.
  2:{ pose proof Havg as Havg'.
      apply calculate_average_Raise, mapM_entry_rate_raises in Havg'
        as [[-> | [-> | ->]] | ->];
        [exists (Ok None), true.. | exists (Raise OverflowError), true];
        intros w;
        rewrite try_except_run, !lift_bind_run, Hf, M_bind_run, Hfetch, lift_bind_run,
          Havg; reflexivity. }
  destruct (float_ (dict_get ctx "funding" (PStr "0"))) as [cur|e] eqn:Hcur.
  2:{ apply float_raises in Hcur as [[-> | [-> | ->]] | ->];
        [exists (Ok None), true.. | exists (Raise OverflowError), true];
        intros w;
        rewrite try_except_run, !lift_bind_run, Hf, M_bind_run, Hfetch, lift_bind_run,
          Havg, lift_bind_run; reflexivity. }
  destruct (mapM entry_rate (d :: h)) as [rates|e] eqn:Hr.
  2:{ pose proof Hr as Hr'.
      apply mapM_entry_rate_raises in Hr' as [[-> | [-> | ->]] | ->];
        [exists (Ok None), true.. | exists (Raise OverflowError), true];
        intros w;
        rewrite try_except_run, !lift_bind_run, Hf, M_bind_run, Hfetch, lift_bind_run,
          Havg, !lift_bind_run, Hr; reflexivity. }
  eexists (Ok (Some _)), true. intros w.
  rewrite try_except_run, !lift_bind_run, Hf, M_bind_run, Hfetch, lift_bind_run, Havg,
    !lift_bind_run, Hr. reflexivity.
Qed.

(** An instrument whose history request is refused, or answered with an
    empty list, is not ranked. *)
Lemma process_coin_no_history name ctx w status body c :
  funding_reply up (funding_payload name st (Some en)) = (status, body) ->
  status <> 200 \/ body = [] ->
  fst (process_coin name ctx w) <> Ok (Some c).
Proof.
  intros Hreply Hbad Hp.
  destruct (process_coin name ctx w) as [r w'] eqn:E. simpl in Hp. subst r.
  apply process_coin_Some in E
    as (oi & mp & vol & cur & h & rates & avg
        & _ & _ & _ & _ & _ & _ & Hh & Hne & _).
  rewrite fetch_funding_history_run, Hreply in Hh.
  injection Hh as Hh _. apply Hne. rewrite <- Hh.
  case_bool_decide; [reflexivity|]. destruct Hbad; [contradiction|assumption].
Qed.

(** With no history to parse, only the context can raise. *)
Lemma process_coin_no_history_in_range name ctx w status body :
  funding_reply up (funding_payload name st (Some en)) = (status, body) ->
  status <> 200 \/ body = [] ->
  ints_in_range ctx ->
  fst (process_coin name ctx w) = Ok None.
Proof.
  intros Hreply Hbad Hctx.
  destruct (process_coin name ctx w) as [[[c|]|e] w'] eqn:E; [|reflexivity|].
  - exfalso. eapply (process_coin_no_history name ctx w); [eassumption..|].
    rewrite E. reflexivity.
  - exfalso. pose proof (process_coin_raises _ _ _ _ _ _ _ _ _ _ E) as ->.
    unfold HyperliquidService.process_coin in E. rewrite try_except_run in E.
    destruct (process_coin_try up min_oi min_vol st en name ctx w)
      as [[r|e1] w1] eqn:Ht; [discriminate|].
    assert (e1 = OverflowError) as ->.
    { destruct e1; simpl in E; rewrite ?mret_run in E; unfold raise in E; congruence. }
    unfold HyperliquidService.process_coin_try in Ht. run_in Ht;
      try (eapply float_in_range; eassumption);
      try (rewrite fetch_funding_history_run in *; discriminate).
    all: match goal with
         | Hf : fetch_funding_history _ _ _ _ _ = (Ok (_ :: _), _) |- _ =>
             rewrite fetch_funding_history_run, Hreply in Hf;
             injection Hf as Hf _; revert Hf;
             case_bool_decide; [discriminate|];
             destruct Hbad; [contradiction|subst body; discriminate]
         end.
Qed.

(** The reply behind an instrument that was appended. *)
Lemma process_coin_Some_reply name ctx w c w' :
  process_coin name ctx w = (Ok (Some c), w') ->
  exists h, funding_reply up (funding_payload name st (Some en)) = (200, h)
            /\ h <> [] /\ funding_data_points c = length h.
Proof.
  intros Hp.
  apply process_coin_Some in Hp
    as (oi & mp & vol & cur & h & rates & avg
        & _ & _ & _ & _ & _ & _ & Hh & Hne & _ & _ & ->).
  rewrite fetch_funding_history_run in Hh.
  destruct (funding_reply up (funding_payload name st (Some en))) as [status body].
  injection Hh as Hh _. case_bool_decide as Hs; [congruence|].
  assert (status = 200) as -> by (destruct (decide (status = 200)); [assumption|contradiction]).
  exists body. subst h. auto.
Qed.
End ProcessCoinShape.

Section RankLoopMore.
Variable up : Upstream.
Variables min_oi min_vol : float.
Variables st en : Z.

Local Abbreviation process_coin := (process_coin up min_oi min_vol st en).
Local Abbreviation rank_loop := (rank_loop up min_oi min_vol st en).

(** The requests of the loop: at most one per instrument that has a
    context, each the history request of an instrument of the universe,
    each taking one latency. *)
Lemma rank_loop_requests universe contexts u i acc w :
  (forall k, u !! k = universe !! (i + k)%nat) ->
  exists ps,
    posts (snd (rank_loop contexts i u acc w)) = (posts w ++ ps)%list
    /\ clock (snd (rank_loop contexts i u acc w))
       = clock w + Z.of_nat (length ps) * latency up
    /\ (length ps <= length u)%nat
    /\ (length ps <= length contexts - i)%nat
    /\ Forall (request_for universe st en) ps.
Proof.
  revert i acc w. induction u as [|meta u IH]; intros i acc w Hu.
  - exists []. simpl. rewrite app_nil_r.
    split; [reflexivity|]. split; [lia|]. split; [lia|]. split; [lia|constructor].
  - destruct (decide (length contexts <= i)%nat) as [Hi|Hi].
    + rewrite rank_loop_beyond by assumption.
      exists []. simpl. rewrite app_nil_r.
      split; [reflexivity|]. split; [lia|]. split; [lia|]. split; [lia|constructor].
    + destruct (lookup_lt_is_Some_2 contexts i) as [ctx Hctx]; [lia|].
      rewrite (rank_loop_step _ _ _ _ _ _ _ _ _ _ _ _ Hctx).
      destruct (meta !! "name") as [name|] eqn:Hname.
      2:{ exists []. simpl. rewrite app_nil_r.
          split; [reflexivity|]. split; [lia|]. split; [lia|]. split; [lia|constructor]. }
      assert (request_for universe st en (funding_payload name st (Some en))) as Hreq.
      { exists i, meta, name. specialize (Hu 0%nat).
        rewrite Nat.add_0_r in Hu. simpl in Hu. auto. }
      destruct (process_coin_shape up min_oi min_vol st en name ctx) as (r & b & Hp).
      rewrite Hp. destruct r as [r|e].
      2:{ destruct b.
          - exists [funding_payload name st (Some en)]. cbn [snd sent posts clock length].
            split; [reflexivity|]. split; [lia|]. split; [lia|]. split; [lia|].
            constructor; [exact Hreq|constructor].
          - exists []. cbn [snd length]. rewrite app_nil_r.
            split; [reflexivity|]. split; [lia|]. split; [lia|].
            split; [lia|constructor]. }
      destruct (IH (S i)
                  (match r with Some c => (acc ++ [c])%list | None => acc end)
                  (if b then sent up (funding_payload name st (Some en)) w else w))
        as (ps & Hps & Hclock & Hlen1 & Hlen2 & Hall).
      { intros k. replace (S i + k)%nat with (i + S k)%nat by lia. apply (Hu (S k)). }
      destruct b.
      * exists (funding_payload name st (Some en) :: ps).
        rewrite Hps, Hclock. cbn [sent posts clock length].
        rewrite <- app_assoc. split; [reflexivity|]. split; [lia|].
        split; [lia|]. split; [lia|].
        constructor; [exact Hreq|exact Hall].
      * exists ps. rewrite Hps, Hclock. cbn [length].
        split; [reflexivity|]. split; [reflexivity|].
        split; [lia|]. split; [lia|exact Hall].
Qed.

(** The loop reads the clock and nothing else of the world. *)
Lemma rank_loop_frame contexts u i acc w v :
  same_clock w v ->
  fst (rank_loop contexts i u acc w) = fst (rank_loop contexts i u acc v)
  /\ same_clock (snd (rank_loop contexts i u acc w)) (snd (rank_loop contexts i u acc v)).
Proof.
  revert i acc w v. induction u as [|meta u IH]; intros i acc w v Hwv.
  - split; [reflexivity|exact Hwv].
  - destruct (decide (length contexts <= i)%nat) as [Hi|Hi].
    + rewrite !rank_loop_beyond by assumption. split; [reflexivity|exact Hwv].
    + destruct (lookup_lt_is_Some_2 contexts i) as [ctx Hctx]; [lia|].
      rewrite !(rank_loop_step _ _ _ _ _ _ _ _ _ _ _ _ Hctx).
      destruct (meta !! "name") as [name|]; [|split; [reflexivity|exact Hwv]].
      destruct (process_coin_shape up min_oi min_vol st en name ctx) as (r & b & Hp).
      rewrite !Hp.
      assert (same_clock
                (if b then sent up (funding_payload name st (Some en)) w else w)
                (if b then sent up (funding_payload name st (Some en)) v else v)) as Hb.
      { destruct b; [|exact Hwv]. unfold same_clock, sent in *. simpl. congruence. }
      destruct r as [r|e]; [apply IH, Hb|split; [reflexivity|exact Hb]].
Qed.


End RankLoopMore.

(** X1. An instrument whose funding-history request is answered with a
    status other than 200, or with an empty list, is never ranked; it
    is skipped without an error when no integer of its context is too
    large for [float] (the only error that can precede the request).
    So every coin of the output had its request answered with 200 and
    a non-empty list, whose length is its [funding_data_points]. *)
Theorem X1_refused_history_is_skipped (up : Upstream) (min_oi min_vol : float) :
  (forall st en name ctx w status body,
     funding_reply up (funding_payload name st (Some en)) = (status, body) ->
     status <> 200 \/ body = [] ->
     (forall c, fst (process_coin up min_oi min_vol st en name ctx w) <> Ok (Some c))
     /\ (ints_in_range ctx ->
         fst (process_coin up min_oi min_vol st en name ctx w) = Ok None))
  /\ (forall days_back top_n w out w' c,
        get_top_funding_rate_coins up min_oi min_vol days_back top_n w = (Ok out, w') ->
        c ∈ out ->
        exists h,
          funding_reply up
            (funding_payload (coin c)
               (window_start (clock (sent up meta_payload w)) days_back)
               (Some (window_end (clock (sent up meta_payload w))))) = (200, h)
          /\ h <> []
          /\ funding_data_points c = length h).
Proof.
  split.
  - intros st en name ctx w status body Hreply Hbad. split.
    + intros c. eapply process_coin_no_history; eassumption.
    + intros Hctx. eapply process_coin_no_history_in_range; eassumption.
  - intros days_back top_n w out w' c Hrun Hc.
    destruct (get_top_elem _ _ _ _ _ _ _ _ _ Hrun Hc)
      as (j & meta & ctx & w1 & w2 & _ & _ & _ & Hp).
    eapply process_coin_Some_reply, Hp.
Qed.

Lemma X1_witness :
  fst (get_top_funding_rate_coins ScenarioApp.exchange_no_history
         10000000 10000000 7 10 Scenario.world_empty) = Ok []
  /\ fst (process_coin ScenarioApp.exchange_no_history 10000000 10000000 0 1
            (PStr "BTC") Scenario.btc_ctx Scenario.world_empty) = Ok None.
Proof.
  split; [vm_compute; reflexivity|].
  eapply (proj1 (X1_refused_history_is_skipped ScenarioApp.exchange_no_history
                   10000000 10000000) 0 1 (PStr "BTC") Scenario.btc_ctx
                Scenario.world_empty 503 Scenario.history3);
    [reflexivity|left; discriminate|].
  unfold Scenario.btc_ctx, Scenario.btc_ctx_no_funding.
  repeat (apply map_Forall_insert_2; [reflexivity|]).
  apply map_Forall_empty.
Defined.

(** The contexts of the scenarios hold strings only. *)
Lemma btc_ctx_in_range : ints_in_range Scenario.btc_ctx.
Proof.
  unfold Scenario.btc_ctx, Scenario.btc_ctx_no_funding.
  repeat (apply map_Forall_insert_2; [reflexivity|]).
  apply map_Forall_empty.
Qed.



(** The finite floats are the zeros and the numbers with a mantissa. *)
Lemma is_finite_spec (x : float) :
  is_finite x = true <->
  (exists s, Prim2SF x = S754_zero s) \/ (exists s m e, Prim2SF x = S754_finite s m e).
Proof.
  unfold is_finite, is_nan, is_infinity.
  rewrite !FloatAxioms.eqb_spec, abs_spec.
  replace (Prim2SF infinity) with (S754_infinity false) by reflexivity.
  destruct (Prim2SF x) as [s|s| |s m e]; cbn.
  - split; [eauto|reflexivity].
  - rewrite orb_true_r.
    split; [discriminate|]. intros [[s' H] | (s' & m & e & H)]; discriminate.
  - split; [discriminate|]. intros [[s' H] | (s' & m & e & H)]; discriminate.
  - rewrite Z.compare_refl, Pos.compare_cont_refl.
    destruct s; (split; [eauto 6|reflexivity]).
Qed.

(** Zero times a finite float is a zero. *)
Lemma fkey_zero_product_l (x y : float) :
  fkey x = Some (0, 0, 0) -> is_finite y = true -> fkey (fmul x y) = Some (0, 0, 0).
Proof.
  intros [sx Hx]%fkey_zero Hy%is_finite_spec. apply fkey_zero.
  unfold fmul. rewrite mul_spec, Hx. unfold SF64mul.
  destruct Hy as [[sy ->] | (sy & m & e & ->)]; simpl; eauto.
Qed.

Lemma fkey_zero_product_r (x y : float) :
  is_finite x = true -> fkey y = Some (0, 0, 0) -> fkey (fmul x y) = Some (0, 0, 0).
Proof.
  intros Hx%is_finite_spec [sy Hy]%fkey_zero. apply fkey_zero.
  unfold fmul. rewrite mul_spec, Hy. unfold SF64mul.
  destruct Hx as [[sx ->] | (sx & m & e & ->)]; simpl; eauto.
Qed.

Lemma float_of_zero_string : float_ (PStr "0") = Ok 0%float.
Proof. vm_compute. reflexivity. Qed.

(** X3. An instrument whose context lacks [dayNtlVlm] is dropped when
    the volume threshold is above 0, and one whose context lacks
    [openInterest] or [markPx] when the open-interest threshold is above
    0 and the other factor is finite: the absent value counts as 0 (an
    infinite factor would make the product NaN, which the filter lets
    through).  The instrument is never ranked and no funding history is
    requested: the world is left as it was; it is skipped without an
    error when no integer of its context is too large for [float]. *)
Theorem X3_absent_liquidity_key_excludes
    (up : Upstream) (min_oi min_vol : float) (st en : Z)
    (name : pyval) (ctx : Dict) (w : World) :
  (ctx !! "dayNtlVlm" = None /\ flt 0 min_vol = true)
  \/ (ctx !! "openInterest" = None /\ flt 0 min_oi = true
      /\ forall mp, float_ (dict_get ctx "markPx" (PStr "0")) = Ok mp ->
                    is_finite mp = true)
  \/ (ctx !! "markPx" = None /\ flt 0 min_oi = true
      /\ forall oi, float_ (dict_get ctx "openInterest" (PStr "0")) = Ok oi ->
                    is_finite oi = true) ->
  snd (process_coin up min_oi min_vol st en name ctx w) = w
  /\ (forall c, fst (process_coin up min_oi min_vol st en name ctx w) <> Ok (Some c))
  /\ (ints_in_range ctx ->
      process_coin up min_oi min_vol st en name ctx w = (Ok None, w)).
Proof.
  intros Habsent.
  assert (forall e, float_raises_here e ->
            snd (process_coin_except e w) = w
            /\ (forall c, fst (process_coin_except e w) <> Ok (Some c))
            /\ (e <> OverflowError -> process_coin_except e w = (Ok None, w)))
    as Hexcept.
  { intros e [[-> | [-> | ->]] | ->]; simpl; rewrite ?mret_run; unfold raise;
      (split; [reflexivity|]); (split; [intros c; discriminate|]);
      intros Hne; first [reflexivity | contradiction]. }
  assert (forall k s e, ints_in_range ctx ->
            float_ (dict_get ctx k (PStr s)) = Raise e -> e <> OverflowError) as Hrange.
  { intros k s e Hctx He ->. eapply float_in_range; eassumption. }
  unfold process_coin. rewrite try_except_run. unfold process_coin_try.
  rewrite lift_bind_run.
  destruct (float_ (dict_get ctx "openInterest" (PStr "0"))) as [oi|e] eqn:Hoi.
  2:{ destruct (Hexcept e (float_raises _ _ Hoi)) as (H1 & H2 & H3).
      split; [exact H1|]. split; [exact H2|]. intros Hctx. eapply H3, Hrange; eassumption. }
  rewrite lift_bind_run.
  destruct (float_ (dict_get ctx "markPx" (PStr "0"))) as [mp|e] eqn:Hmp.
  2:{ destruct (Hexcept e (float_raises _ _ Hmp)) as (H1 & H2 & H3).
      split; [exact H1|]. split; [exact H2|]. intros Hctx. eapply H3, Hrange; eassumption. }
  rewrite lift_bind_run.
  destruct (float_ (dict_get ctx "dayNtlVlm" (PStr "0"))) as [vol|e] eqn:Hvol.
  2:{ destruct (Hexcept e (float_raises _ _ Hvol)) as (H1 & H2 & H3).
      split; [exact H1|]. split; [exact H2|]. intros Hctx. eapply H3, Hrange; eassumption. }
  assert (flt (fmul oi mp) min_oi || flt vol min_vol = true) as ->.
  2:{ rewrite mret_run. split; [reflexivity|]. split; [intros c; discriminate|reflexivity]. }
  apply orb_true_iff.
  destruct Habsent as [[Hk Hm] | [(Hk & Hm & Hfin) | (Hk & Hm & Hfin)]].
  - right. unfold dict_get in Hvol. rewrite Hk, float_of_zero_string in Hvol.
    injection Hvol as <-. exact Hm.
  - left. unfold dict_get in Hoi. rewrite Hk, float_of_zero_string in Hoi.
    injection Hoi as <-.
    rewrite (flt_same_key (fmul 0 mp) 0 min_oi); [exact Hm|].
    rewrite (fkey_zero_product_l 0 mp); [reflexivity|reflexivity|apply Hfin; reflexivity].
  - left. unfold dict_get in Hmp. rewrite Hk, float_of_zero_string in Hmp.
    injection Hmp as <-.
    rewrite (flt_same_key (fmul oi 0) 0 min_oi); [exact Hm|].
    rewrite (fkey_zero_product_r oi 0); [reflexivity|apply Hfin; reflexivity|reflexivity].
Qed.

Lemma X3_witness :
  process_coin (Scenario.exchange_up Scenario.btc_ctx) 10000000 10000000 0 1
    (PStr "BTC") (delete "markPx" Scenario.btc_ctx) Scenario.world_empty
  = (Ok None, Scenario.world_empty).
Proof.
  apply X3_absent_liquidity_key_excludes.
  - right. right. split; [vm_compute; reflexivity|]. split; [vm_compute; reflexivity|].
    intros oi Hoi. vm_compute in Hoi. injection Hoi as <-. vm_compute. reflexivity.
  - apply map_Forall_delete.
    unfold Scenario.btc_ctx, Scenario.btc_ctx_no_funding.
    repeat (apply map_Forall_insert_2; [reflexivity|]).
    apply map_Forall_empty.
Defined.

(** X4. What a run sends and costs, whether it returns or raises: the
    bulk request first, then at most one funding-history request per
    instrument that has both a metadata entry and a context, each for
    the name of an instrument of the universe over the run's window;
    the clock advances by one latency per request, the collection is
    not touched, and a refused bulk request is the only request. *)
Theorem X4_requests_of_a_run
    (up : Upstream) (min_oi min_vol : float) (days_back top_n : Z) (w : World) :
  let w' := snd (get_top_funding_rate_coins up min_oi min_vol days_back top_n w) in
  exists ps,
    posts w' = (posts w ++ meta_payload :: ps)%list
    /\ (length ps <= min (length (meta_universe up)) (length (meta_contexts up)))%nat
    /\ Forall (request_for (meta_universe up)
                 (window_start (clock (sent up meta_payload w)) days_back)
                 (window_end (clock (sent up meta_payload w)))) ps
    /\ clock w' = clock w + (1 + Z.of_nat (length ps)) * latency up
    /\ db w' = db w
    /\ (meta_status up <> 200 -> ps = []).
Proof.
  cbv zeta. rewrite get_top_run. cbv zeta. case_bool_decide as Hs.
  - exists []. cbn [snd sent posts clock db length].
    split; [reflexivity|]. split; [lia|]. split; [constructor|].
    split; [lia|]. split; reflexivity.
  - destruct (window _ _) as [[st en]|e] eqn:Hw.
    2:{ exists []. cbn [snd sent posts clock db length].
        split; [reflexivity|]. split; [lia|]. split; [constructor|].
        split; [lia|]. split; [reflexivity|]. intros Hne. contradiction. }
    apply window_Ok in Hw as (_ & -> & ->).
    destruct (rank_loop_requests up min_oi min_vol
                (window_start (clock (sent up meta_payload w)) days_back)
                (window_end (clock (sent up meta_payload w)))
                (meta_universe up) (meta_contexts up) (meta_universe up) 0 []
                (sent up meta_payload w) (fun k => eq_refl))
      as (ps & Hps & Hclock & Hlen1 & Hlen2 & Hall).
    destruct (rank_loop _ _ _ _ _ _ _ _ _ _) as [r w1] eqn:Hloop.
    apply rank_loop_world in Hloop as [Hdb _].
    cbn [snd] in Hps, Hclock.
    assert (snd (match r with
                 | Ok eligible =>
                     (Ok (slice_to (sort_desc annualized_funding_rate eligible) top_n), w1)
                 | Raise e => (Raise e, w1)
                 end) = w1) as -> by (destruct r; reflexivity).
    exists ps. rewrite Hps, Hclock, Hdb. cbn [sent posts clock db].
    rewrite <- app_assoc.
    split; [reflexivity|]. split; [lia|]. split; [exact Hall|].
    split; [lia|]. split; [reflexivity|]. intros Hne. contradiction.
Qed.

Lemma get_top_loop up min_oi min_vol days_back top_n w out w' :
  get_top_funding_rate_coins up min_oi min_vol days_back top_n w = (Ok out, w') ->
  exists eligible,
    rank_loop up min_oi min_vol
      (window_start (clock (sent up meta_payload w)) days_back)
      (window_end (clock (sent up meta_payload w)))
      (meta_contexts up) 0 (meta_universe up) [] (sent up meta_payload w)
    = (Ok eligible, w')
    /\ out = slice_to (sort_desc annualized_funding_rate eligible) top_n.
Proof.
  intros (_ & _ & H)%get_top_Ok. exact H.
Qed.

(** X5. How many coins a run returns, [n] being the number of surviving
    instruments: the smaller of [top_n] and [n] when [top_n] is not
    negative (none for 0), and [n + top_n], or none, when [top_n] is
    negative, the slice then dropping coins from the low end; with
    [top_n] at least [n] every survivor is returned. *)
Theorem X5_length_of_the_output
    (up : Upstream) (min_oi min_vol : float) (days_back top_n : Z)
    (w : World) (out : list Coin) (w' : World) :
  get_top_funding_rate_coins up min_oi min_vol days_back top_n w = (Ok out, w') ->
  exists eligible,
    rank_loop up min_oi min_vol
      (window_start (clock (sent up meta_payload w)) days_back)
      (window_end (clock (sent up meta_payload w)))
      (meta_contexts up) 0 (meta_universe up) [] (sent up meta_payload w)
    = (Ok eligible, w')
    /\ Z.of_nat (length out)
       = (if 0 <=? top_n then Z.min top_n (Z.of_nat (length eligible))
          else Z.max 0 (Z.of_nat (length eligible) + top_n))
    /\ (Z.of_nat (length eligible) <= top_n -> out ≡ₚ eligible).
Proof.
  intros Hrun. apply get_top_loop in Hrun as (eligible & Hloop & ->).
  exists eligible. split; [exact Hloop|]. split.
  - unfold slice_to. destruct (0 <=? top_n) eqn:E.
    + apply Z.leb_le in E. rewrite length_take.
      rewrite (Permutation_length (sort_desc_Permutation _ eligible)). lia.
    + apply Z.leb_gt in E. rewrite length_take.
      rewrite !(Permutation_length (sort_desc_Permutation _ eligible)). lia.
  - intros Hn. unfold slice_to.
    destruct (0 <=? top_n) eqn:E; [|apply Z.leb_gt in E; lia].
    rewrite take_ge; [apply sort_desc_Permutation|].
    rewrite (Permutation_length (sort_desc_Permutation _ eligible)). lia.
Qed.

Lemma X5_witness :
  Z.of_nat (length [Scenario.sol_coin; Scenario.named_coin "BTC"]) = Z.max 0 (3 + -1).
Proof.
  assert (fst (get_top_funding_rate_coins Scenario.exchange_three
                 10000000 10000000 7 (-1) Scenario.world_empty)
          = Ok [Scenario.sol_coin; Scenario.named_coin "BTC"]) as Hrun
    by (vm_compute; reflexivity).
  destruct (get_top_funding_rate_coins Scenario.exchange_three
              10000000 10000000 7 (-1) Scenario.world_empty) as [r w'] eqn:E.
  simpl in Hrun. subst r.
  destruct (X5_length_of_the_output _ _ _ _ _ _ _ _ E) as (eligible & _ & Hlen & _).
  reflexivity.
Defined.

(** X6. Truncation keeps the best: with [top_n] not negative, the coins
    of the output together with the survivors left out are all the
    survivors, and, when no survivor has a NaN rate, no survivor left
    out has a higher [annualized_funding_rate] than a coin of the
    output. *)
Theorem X6_no_survivor_outranks_the_output
    (up : Upstream) (min_oi min_vol : float) (days_back top_n : Z)
    (w : World) (out : list Coin) (w' : World) :
  get_top_funding_rate_coins up min_oi min_vol days_back top_n w = (Ok out, w') ->
  0 <= top_n ->
  exists eligible rest,
    rank_loop up min_oi min_vol
      (window_start (clock (sent up meta_payload w)) days_back)
      (window_end (clock (sent up meta_payload w)))
      (meta_contexts up) 0 (meta_universe up) [] (sent up meta_payload w)
    = (Ok eligible, w')
    /\ (out ++ rest)%list ≡ₚ eligible
    /\ (Forall (fun c => is_nan (annualized_funding_rate c) = false) eligible ->
        forall c c', c ∈ out -> c' ∈ rest ->
          (annualized_funding_rate c' <=? annualized_funding_rate c)%float = true
          /\ (annualized_funding_rate c <? annualized_funding_rate c')%float = false).
Proof.
  intros Hrun Hn. apply get_top_loop in Hrun as (eligible & Hloop & ->).
  rewrite slice_to_nonneg by assumption.
  exists eligible, (drop (Z.to_nat top_n) (sort_desc annualized_funding_rate eligible)).
  split; [exact Hloop|]. split.
  - rewrite take_drop. apply sort_desc_Permutation.
  - intros Hnan c c' Hc Hc'.
    pose proof (sort_desc_sorted annualized_funding_rate eligible Hnan) as Hs.
    rewrite <- (take_drop (Z.to_nat top_n)) in Hs.
    pose proof (StronglySorted_app_1_elem_of _ _ _ _ _ Hs Hc Hc') as Hle.
    split; [exact Hle|]. apply fle_flt_false, Hle.
Qed.

Lemma X6_witness :
  exists eligible rest,
    ([Scenario.sol_coin] ++ rest)%list ≡ₚ eligible
    /\ (Forall (fun c => is_nan (annualized_funding_rate c) = false) eligible ->
        forall c', c' ∈ rest ->
          (annualized_funding_rate c' <=? annualized_funding_rate Scenario.sol_coin)%float
          = true).
Proof.
  assert (fst (get_top_funding_rate_coins Scenario.exchange_three
                 10000000 10000000 7 1 Scenario.world_empty)
          = Ok [Scenario.sol_coin]) as Hrun
    by (vm_compute; reflexivity).
  destruct (get_top_funding_rate_coins Scenario.exchange_three
              10000000 10000000 7 1 Scenario.world_empty) as [r w'] eqn:E.
  simpl in Hrun. subst r.
  destruct (X6_no_survivor_outranks_the_output _ _ _ _ _ _ _ _ E ltac:(lia))
    as (eligible & rest & _ & Hperm & Hle).
  exists eligible, rest. split; [exact Hperm|].
  intros Hnan c' Hc'. apply (Hle Hnan); [apply list_elem_of_here|exact Hc'].
Defined.

(** X7. The ranking reads the clock and nothing else of the world: two
    runs against the same exchange from worlds that agree on the clock
    return the same result, whatever the collection and the request log
    hold, and leave worlds that agree on the clock. *)
Theorem X7_run_reads_only_the_clock
    (up : Upstream) (min_oi min_vol : float) (days_back top_n : Z) (w v : World) :
  same_clock w v ->
  fst (get_top_funding_rate_coins up min_oi min_vol days_back top_n w)
  = fst (get_top_funding_rate_coins up min_oi min_vol days_back top_n v)
  /\ same_clock (snd (get_top_funding_rate_coins up min_oi min_vol days_back top_n w))
                (snd (get_top_funding_rate_coins up min_oi min_vol days_back top_n v)).
Proof.
  intros Hwv. rewrite !get_top_run. cbv zeta.
  assert (same_clock (sent up meta_payload w) (sent up meta_payload v)) as Hsent
    by (unfold same_clock, sent in *; simpl; congruence).
  case_bool_decide; [split; [reflexivity|exact Hsent]|].
  replace (clock (sent up meta_payload v)) with (clock (sent up meta_payload w))
    by exact Hsent.
  destruct (window _ _) as [[st en]|e]; [|split; [reflexivity|exact Hsent]].
  destruct (rank_loop_frame up min_oi min_vol st en
              (meta_contexts up) (meta_universe up) 0 []
              (sent up meta_payload w) (sent up meta_payload v) Hsent) as [Hr Hc].
  destruct (rank_loop _ _ _ _ _ _ _ _ _ (sent up meta_payload w)) as [r1 w1].
  destruct (rank_loop _ _ _ _ _ _ _ _ _ (sent up meta_payload v)) as [r2 v1].
  simpl in Hr, Hc. subst r2. destruct r1; split; auto.
Qed.

Lemma X7_witness :
  fst (get_top_funding_rate_coins Scenario.exchange_three 10000000 10000000 7 10
         Scenario.world_empty)
  = fst (get_top_funding_rate_coins Scenario.exchange_three 10000000 10000000 7 10
           {| db := [Scenario.old_doc]; clock := 1000000000; posts := [meta_payload] |}).
Proof.
  apply (X7_run_reads_only_the_clock Scenario.exchange_three 10000000 10000000 7 10
           Scenario.world_empty
           {| db := [Scenario.old_doc]; clock := 1000000000; posts := [meta_payload] |}).
  reflexivity.
Defined.

(** X8. Every coin of the output is built from one row of the bulk
    reply: its name is the name of the metadata at some index, and its
    mark price, daily volume and current funding rate are the numbers
    read from the context at that same index, its open interest in USD
    the product of that context's open interest and mark price; the
    percentage fields are the rates times 100 and the annualized
    current rate is the current rate times 3 times 365. *)
Theorem X8_output_rows_come_from_one_index
    (up : Upstream) (min_oi min_vol : float) (days_back top_n : Z)
    (w : World) (out : list Coin) (w' : World) (c : Coin) :
  get_top_funding_rate_coins up min_oi min_vol days_back top_n w = (Ok out, w') ->
  c ∈ out ->
  exists j meta ctx oi,
    meta_universe up !! j = Some meta
    /\ meta_contexts up !! j = Some ctx
    /\ meta !! "name" = Some (coin c)
    /\ float_ (dict_get ctx "openInterest" (PStr "0")) = Ok oi
    /\ float_ (dict_get ctx "markPx" (PStr "0")) = Ok (mark_price c)
    /\ float_ (dict_get ctx "dayNtlVlm" (PStr "0")) = Ok (daily_volume_usd c)
    /\ float_ (dict_get ctx "funding" (PStr "0")) = Ok (current_funding_rate c)
    /\ open_interest_usd c = fmul oi (mark_price c)
    /\ avg_funding_rate_pct c = fmul (avg_funding_rate c) 100
    /\ annualized_funding_rate_pct c = fmul (annualized_funding_rate c) 100
    /\ current_funding_rate_annualized c = fmul (fmul (current_funding_rate c) 3) 365
    /\ current_funding_rate_annualized_pct c
       = fmul (current_funding_rate_annualized c) 100.
Proof.
  intros Hrun Hc.
  destruct (get_top_elem _ _ _ _ _ _ _ _ _ Hrun Hc)
    as (j & meta & ctx & w1 & w2 & Hmeta & Hctx & Hname & Hp).
  apply process_coin_Some in Hp
    as (oi & mp & vol & cur & h & rates & avg
        & Hoi & Hmp & Hvol & Hcur & _ & _ & _ & _ & _ & _ & Hcoin).
  exists j, meta, ctx, oi. rewrite Hcoin in *.
  cbn [scored_coin coin mark_price daily_volume_usd current_funding_rate
       open_interest_usd avg_funding_rate avg_funding_rate_pct
       annualized_funding_rate annualized_funding_rate_pct
       current_funding_rate_annualized current_funding_rate_annualized_pct] in *.
  repeat split; assumption.
Qed.

Lemma X8_witness :
  exists j meta ctx,
    meta_universe Scenario.exchange_three !! j = Some meta
    /\ meta_contexts Scenario.exchange_three !! j = Some ctx
    /\ meta !! "name" = Some (PStr "SOL").
Proof.
  assert (fst (get_top_funding_rate_coins Scenario.exchange_three
                 10000000 10000000 7 1 Scenario.world_empty)
          = Ok [Scenario.sol_coin]) as Hrun
    by (vm_compute; reflexivity).
  destruct (get_top_funding_rate_coins Scenario.exchange_three
              10000000 10000000 7 1 Scenario.world_empty) as [r w'] eqn:E.
  simpl in Hrun. subst r.
  destruct (X8_output_rows_come_from_one_index _ _ _ _ _ _ _ _ Scenario.sol_coin E
              (list_elem_of_here _ _))
    as (j & meta & ctx & oi & Hmeta & Hctx & Hname & _).
  exists j, meta, ctx. auto.
Defined.

(** * Further properties of the refresh and the read *)

Lemma refreshed_eq up w :
  refreshed up w =
  match get_top_funding_rate_coins up 10000000 10000000 7 10 w with
  | (Ok cs, w1) =>
      {| db := [snapshot cs (clock w1)]; clock := clock w1; posts := posts w1 |}
  | (Raise e, w1) => w1
  end.
Proof.
  unfold refreshed. rewrite update_run.
  destruct (get_top_funding_rate_coins up 10000000 10000000 7 10 w)
    as [[cs|e] w1]; reflexivity.
Qed.

Lemma refreshed_failed_db up w :
  is_ok (fst (get_top_funding_rate_coins up 10000000 10000000 7 10 w)) = false ->
  db (refreshed up w) = db w.
Proof.
  intros Hfail. rewrite refreshed_eq.
  destruct (get_top_funding_rate_coins up 10000000 10000000 7 10 w)
    as [[cs|e] w1] eqn:E; [discriminate|].
  apply get_top_world in E as [Hdb _]. exact Hdb.
Qed.

(** What a run with the default parameters returns is fit to store. *)
Lemma get_top_default_good up w cs w1 :
  get_top_funding_rate_coins up 10000000 10000000 7 10 w = (Ok cs, w1) ->
  (length cs <= 10)%nat /\ Forall stored_coin_ok cs.
Proof.
  intros Hrun. split.
  - apply get_top_loop in Hrun as (eligible & _ & ->).
    rewrite slice_to_nonneg by lia. rewrite length_take. lia.
  - apply Forall_forall. intros c Hc.
    destruct (get_top_elem _ _ _ _ _ _ _ _ _ Hrun Hc)
      as (j & meta & ctx & v1 & v2 & _ & _ & _ & Hp).
    apply process_coin_Some in Hp
      as (oi & mp & vol & cur & h & rates & avg
          & _ & _ & _ & _ & Hf1 & Hf2 & _ & Hne & _ & _ & ->).
    unfold stored_coin_ok.
    cbn [scored_coin open_interest_usd daily_volume_usd funding_data_points
         annualized_funding_rate avg_funding_rate].
    split; [exact Hf1|]. split; [exact Hf2|].
    split; [destruct h; [congruence|simpl; lia]|reflexivity].
Qed.

Lemma snapshot_good up w cs w1 :
  get_top_funding_rate_coins up 10000000 10000000 7 10 w = (Ok cs, w1) ->
  good_doc (snapshot cs (clock w1)).
Proof.
  intros Hrun. destruct (get_top_default_good up w cs w1 Hrun) as (H1 & H2).
  unfold good_doc, snapshot. cbn [coins last_updated next_update]. auto.
Qed.

Lemma refreshed_good up w : good_store w -> good_store (refreshed up w).
Proof.
  intros [Hlen Hall]. rewrite refreshed_eq.
  destruct (get_top_funding_rate_coins up 10000000 10000000 7 10 w)
    as [[cs|e] w1] eqn:E.
  - split; [simpl; lia|]. cbn [db]. constructor; [|constructor].
    eapply snapshot_good, E.
  - apply get_top_world in E as [Hdb _]. unfold good_store. rewrite Hdb. auto.
Qed.

Lemma read_good up force w :
  good_store w -> good_store (snd (get_hyperliquid_top_coins up force w)).
Proof.
  intros Hw. rewrite read_world. cbv zeta.
  set (w1 := if force || negb (bool_decide (is_Some (head (db w))))
             then refreshed up w else w).
  assert (good_store w1) as Hw1
    by (unfold w1; destruct (_ || _); [apply refreshed_good|]; exact Hw).
  destruct (stale w1); [apply refreshed_good|]; exact Hw1.
Qed.

(** X9. The refresh keeps the collection well formed: a refresh that
    succeeds leaves exactly one document, whatever the collection held,
    and that document has at most 10 coins, none below a default
    threshold and each scored on at least one entry, with [next_update]
    one hour after [last_updated]; from a collection of at most one
    such document, every refresh and every read leave one again. *)
Theorem X9_store_stays_well_formed (up : Upstream) (w : World) :
  (forall cs w1,
     get_top_funding_rate_coins up 10000000 10000000 7 10 w = (Ok cs, w1) ->
     db (snd (update_hyperliquid_data up w)) = [snapshot cs (clock w1)]
     /\ good_store (snd (update_hyperliquid_data up w)))
  /\ (good_store w ->
      good_store (snd (update_hyperliquid_data up w))
      /\ (forall force_refresh,
            good_store (snd (get_hyperliquid_top_coins up force_refresh w)))).
Proof.
  split.
  - intros cs w1 Hrun. fold (refreshed up w). rewrite refreshed_eq, Hrun.
    split; [reflexivity|]. split; [simpl; lia|].
    cbn [db]. constructor; [|constructor]. eapply snapshot_good, Hrun.
  - intros Hw. split; [apply refreshed_good, Hw|].
    intros force_refresh; apply read_good, Hw.
Qed.

Lemma X9_witness :
  good_store (snd (get_hyperliquid_top_coins Scenario.exchange_three true
                     Scenario.world_empty)).
Proof.
  destruct (X9_store_stays_well_formed Scenario.exchange_three Scenario.world_empty)
    as [_ H].
  destruct H as (_ & Hread).
  - split; [cbn [Scenario.world_empty db length]; lia|constructor].
  - exact (Hread true).
Defined.

Lemma validate_coin_raises c e : validate_coin c = Raise e -> e = ValidationError.
Proof. unfold validate_coin. destruct (coin c); intros [= <-]; reflexivity. Qed.

Lemma mapM_validate_raises cs e :
  mapM validate_coin cs = Raise e ->
  e = ValidationError /\ exists c, c ∈ cs /\ forall s, coin c <> PStr s.
Proof.
  induction cs as [|c cs IH]; simpl; [discriminate|].
  destruct (validate_coin c) as [h|e'] eqn:Hc; simpl.
  - destruct (mapM validate_coin cs) as [hs|e'] eqn:Hcs; simpl; [discriminate|].
    intros [= <-]. destruct (IH eq_refl) as (He & c' & Hin & Hc').
    split; [exact He|]. exists c'. split; [right; exact Hin|exact Hc'].
  - intros [= <-]. split; [eapply validate_coin_raises, Hc|].
    exists c. split; [left|]. intros s Hs. unfold validate_coin in Hc.
    rewrite Hs in Hc. discriminate.
Qed.

Lemma mapM_validate_Ok cs hs :
  mapM validate_coin cs = Ok hs -> Forall2 (fun c h => validate_coin c = Ok h) cs hs.
Proof.
  revert hs. induction cs as [|c cs IH]; intros hs; simpl.
  - intros [= <-]. constructor.
  - intros H. apply result_bind_Ok in H as (h & Hh & H).
    apply result_bind_Ok in H as (hs' & Hhs & H). injection H as <-.
    constructor; [exact Hh|apply IH, Hhs].
Qed.

Lemma head_refreshed up w :
  is_Some (head (db w)) -> is_Some (head (db (refreshed up w))).
Proof.
  intros Hsome. rewrite refreshed_eq.
  destruct (get_top_funding_rate_coins up 10000000 10000000 7 10 w)
    as [[cs|e] w1] eqn:E; [simpl; eauto|].
  apply get_top_world in E as [-> _]. exact Hsome.
Qed.

(** The read, outcome and world: [w1] after the first decision, [w2]
    after the staleness check. *)
Lemma read_run up force w :
  let w1 := if force || negb (bool_decide (is_Some (head (db w))))
            then refreshed up w else w in
  let w2 := if stale w1 then refreshed up w1 else w1 in
  (head (db w1) = None
   /\ get_hyperliquid_top_coins up force w = (Raise (HTTPException 503), w1))
  \/ (exists d, head (db w2) = Some d
      /\ is_Some (head (db w1))
      /\ ((exists cs, mapM validate_coin (coins d) = Ok cs
                      /\ get_hyperliquid_top_coins up force w = (Ok (served d cs), w2))
          \/ (mapM validate_coin (coins d) = Raise ValidationError
              /\ get_hyperliquid_top_coins up force w
                 = (Ok (failed ValidationError (clock w2)), w2)))).
Proof.
  cbv zeta. unfold get_hyperliquid_top_coins.
  rewrite try_except_run, read_try_run. cbv zeta.
  set (w1 := if force || negb (bool_decide (is_Some (head (db w))))
             then refreshed up w else w).
  destruct (head (db w1)) as [d1|] eqn:Hd1; [right|left; split; reflexivity].
  set (w2 := if stale w1 then refreshed up w1 else w1).
  assert (is_Some (head (db w2))) as [d Hd].
  { unfold w2. destruct (stale w1); [apply head_refreshed|]; rewrite Hd1; eauto. }
  exists d. split; [exact Hd|]. split; [eauto|].
  rewrite Hd. unfold respond. rewrite lift_bind_run.
  destruct (mapM validate_coin (coins d)) as [cs|e] eqn:Hv.
  - left. exists cs. split; reflexivity.
  - right. apply mapM_validate_raises in Hv as [-> _]. split; reflexivity.
Qed.

Lemma read_raises_503 up force_refresh w :
  (forall e, fst (get_hyperliquid_top_coins up force_refresh w) = Raise e ->
             e = HTTPException 503)
  /\ (fst (get_hyperliquid_top_coins up force_refresh w) = Raise (HTTPException 503)
      <-> db w = []
          /\ is_ok (fst (get_top_funding_rate_coins up 10000000 10000000 7 10 w)) = false).
Proof.
  pose proof (read_run up force_refresh w) as Hrun. cbv zeta in Hrun.
  set (w1 := if force_refresh || negb (bool_decide (is_Some (head (db w))))
             then refreshed up w else w) in *.
  assert (head (db w1) = None <->
          db w = []
          /\ is_ok (fst (get_top_funding_rate_coins up 10000000 10000000 7 10 w)) = false)
    as Hempty.
  { unfold w1. destruct (db w) as [|d0 rest] eqn:Hdb.
    - cbn [head]. rewrite bool_decide_eq_false_2 by (intros [? ?]; discriminate).
      rewrite orb_true_r. rewrite refreshed_eq.
      destruct (get_top_funding_rate_coins up 10000000 10000000 7 10 w)
        as [[cs|e] v1] eqn:E; cbn [fst is_ok db head].
      + split; [discriminate|]. intros [_ ?]. discriminate.
      + apply get_top_world in E as [-> _]. rewrite Hdb. split; auto.
    - split; [|intros [? _]; discriminate].
      intros Hnone. exfalso.
      assert (is_Some (head (db (if force_refresh
                                     || negb (bool_decide (is_Some (head (d0 :: rest))))
                                 then refreshed up w else w)))) as [x Hx].
      { destruct (_ || _); [apply head_refreshed|]; rewrite Hdb; simpl; eauto. }
      congruence. }
  split.
  - intros e He. destruct Hrun as [[_ Hr]|(d & _ & _ & [(cs & _ & Hr)|[_ Hr]])];
      rewrite Hr in He; simpl in He; congruence.
  - split.
    + intros He. apply Hempty.
      destruct Hrun as [[Hnone _]|(d & _ & _ & [(cs & _ & Hr)|[_ Hr]])];
        [exact Hnone| |]; rewrite Hr in He; discriminate.
    + intros Hw. apply Hempty in Hw.
      destruct Hrun as [[_ Hr]|(d & _ & [x Hx] & _)]; [rewrite Hr; reflexivity|].
      congruence.
Qed.

(** X11. The endpoint lets one exception out, HTTP 503, in two cases:
    the database handle is not set, and then nothing is read, sent or
    written; or the collection is empty and the refresh the read then
    makes fails.  Every other outcome is a response, that of the read. *)
Theorem X11_read_raises_only_503
    (state_db : option unit) (up : Upstream) (force_refresh : bool) (w : World) :
  (forall e, fst (top_coins_endpoint state_db up force_refresh w) = Raise e ->
             e = HTTPException 503)
  /\ (fst (top_coins_endpoint state_db up force_refresh w) = Raise (HTTPException 503)
      <-> state_db = None
          \/ (db w = []
              /\ is_ok (fst (get_top_funding_rate_coins up 10000000 10000000 7 10 w))
                 = false))
  /\ (state_db = None ->
      top_coins_endpoint state_db up force_refresh w = (Raise (HTTPException 503), w))
  /\ (state_db <> None ->
      top_coins_endpoint state_db up force_refresh w
      = get_hyperliquid_top_coins up force_refresh w).
Proof.
  destruct (read_raises_503 up force_refresh w) as [Honly Hiff].
  unfold top_coins_endpoint. rewrite lift_bind_run.
  destruct state_db as [[]|]; cbn [_ensure_db].
  - split; [exact Honly|]. split; [|split; [discriminate|reflexivity]].
    rewrite Hiff. split; [auto|]. intros [?|?]; [discriminate|assumption].
  - cbn [fst]. split; [intros e [= <-]; reflexivity|].
    split; [split; auto|]. split; [reflexivity|]. intros Hne. contradiction.
Qed.

(** X12. Every response of the read is taken from the document that is
    first in the collection when the read ends: either the successful
    response carrying that document's coins and timestamps, with no
    error, or, when one of its coins has a name that is not a string,
    the unsuccessful response: no coins, both timestamps the instant of
    the answer, and the validation error. *)
Theorem X12_response_serves_the_store
    (up : Upstream) (force_refresh : bool) (w : World) (resp : HyperliquidResponse) :
  fst (get_hyperliquid_top_coins up force_refresh w) = Ok resp ->
  exists d,
    head (db (snd (get_hyperliquid_top_coins up force_refresh w))) = Some d
    /\ ((exists cs, mapM validate_coin (coins d) = Ok cs /\ resp = served d cs)
        \/ ((exists c, c ∈ coins d /\ forall s, coin c <> PStr s)
            /\ resp = failed ValidationError
                        (clock (snd (get_hyperliquid_top_coins up force_refresh w))))).
Proof.
  intros Hresp.
  destruct (read_run up force_refresh w)
    as [[_ Hr]|(d & Hd & _ & [(cs & Hv & Hr)|[Hv Hr]])];
    rewrite Hr in Hresp |- *; cbn [fst snd] in *; [discriminate| |].
  - injection Hresp as <-. exists d. split; [exact Hd|]. left. eauto.
  - injection Hresp as <-. exists d. split; [exact Hd|]. right.
    apply mapM_validate_raises in Hv as [_ Hc]. split; [exact Hc|reflexivity].
Qed.

Lemma X12_witness :
  exists d, head (db (snd (get_hyperliquid_top_coins Scenario.exchange_down false
                             Scenario.world_fresh))) = Some d.
Proof.
  assert (fst (get_hyperliquid_top_coins Scenario.exchange_down false Scenario.world_fresh)
          = Ok (served Scenario.old_doc [Scenario.btc_response_coin])) as Hresp
    by (vm_compute; reflexivity).
  destruct (X12_response_serves_the_store _ _ _ _ Hresp) as (d & Hd & _).
  exists d. exact Hd.
Defined.

Lemma validate_coin_fields c h :
  validate_coin c = Ok h ->
  hc_avg_funding_rate h = avg_funding_rate c
  /\ hc_open_interest_usd h = open_interest_usd c
  /\ hc_daily_volume_usd h = daily_volume_usd c
  /\ hc_funding_data_points h = funding_data_points c.
Proof.
  unfold validate_coin. destruct (coin c); try discriminate.
  intros [= <-]. repeat split.
Qed.

Lemma served_good cs hs :
  Forall2 (fun c h => validate_coin c = Ok h) cs hs ->
  Forall stored_coin_ok cs ->
  Forall response_coin_ok hs.
Proof.
  intros Hall. induction Hall as [|c h cs hs Hc Hall IH]; intros Hoks.
  - constructor.
  - apply Forall_cons in Hoks as [Hok Hoks].
    constructor; [|apply IH, Hoks].
    destruct (validate_coin_fields _ _ Hc) as (_ & H1 & H2 & H3).
    destruct Hok as (Ho1 & Ho2 & Ho3 & _).
    unfold response_coin_ok. rewrite H1, H2, H3. auto.
Qed.

(** X10. From a well-formed collection, every successful response of
    the read lists at most 10 coins, none with an open interest or a
    daily volume below 10,000,000 USD and each with at least one funding
    data point, and gives a [next_update] one hour after
    [last_updated]. *)
Theorem X10_served_coins_are_liquid
    (up : Upstream) (force_refresh : bool) (w : World) (resp : HyperliquidResponse) :
  good_store w ->
  fst (get_hyperliquid_top_coins up force_refresh w) = Ok resp ->
  success resp = true ->
  (length (resp_coins resp) <= 10)%nat
  /\ Forall response_coin_ok (resp_coins resp)
  /\ resp_next_update resp = resp_last_updated resp + MICROS_PER_HOUR.
Proof.
  intros Hw Hresp Hsuccess.
  pose proof (read_good up force_refresh w Hw) as [_ Hgood].
  destruct (read_run up force_refresh w)
    as [[_ Hr]|(d & Hd & _ & [(cs & Hv & Hr)|[Hv Hr]])];
    rewrite Hr in Hresp, Hgood; cbn [fst snd] in *; [discriminate| |].
  2:{ injection Hresp as <-. discriminate Hsuccess. }
  injection Hresp as <-.
  assert (good_doc d) as (Hlen & Hoks & Hnext).
  { destruct (db _) as [|d0 rest]; [discriminate|].
    injection Hd as ->. apply Forall_cons in Hgood as [Hg _]. exact Hg. }
  apply mapM_validate_Ok in Hv.
  pose proof (served_good _ _ Hv Hoks) as H1.
  cbn [served resp_coins resp_next_update resp_last_updated].
  rewrite <- (Forall2_length _ _ _ Hv). auto.
Qed.

Lemma X10_witness :
  (length [Scenario.btc_response_coin] <= 10)%nat
  /\ Forall response_coin_ok [Scenario.btc_response_coin].
Proof.
  assert (fst (get_hyperliquid_top_coins Scenario.exchange_down false Scenario.world_fresh)
          = Ok (served Scenario.old_doc [Scenario.btc_response_coin])) as Hresp
    by (vm_compute; reflexivity).
  assert (good_store Scenario.world_fresh) as Hgood.
  { split; [cbn [Scenario.world_fresh db length]; lia|].
    cbn [Scenario.world_fresh db]. constructor; [|constructor].
    split; [cbn [Scenario.old_doc coins length]; lia|].
    split; [|reflexivity].
    cbn [Scenario.old_doc coins]. constructor; [|constructor].
    split; [vm_compute; reflexivity|]. split; [vm_compute; reflexivity|].
    split; [cbn; lia|reflexivity]. }
  destruct (X10_served_coins_are_liquid _ _ _ _ Hgood Hresp eq_refl)
    as (H1 & H2 & _).
  exact (conj H1 H2).
Defined.

Lemma stale_after_success up w cs w1 :
  get_top_funding_rate_coins up 10000000 10000000 7 10 w = (Ok cs, w1) ->
  stale (refreshed up w) = false.
Proof.
  intros Hrun. unfold stale. rewrite refreshed_eq, Hrun.
  cbn [db head clock snapshot last_updated].
  apply bool_decide_eq_false_2. unfold MICROS_PER_HOUR. lia.
Qed.

(** X13. A read that refreshes because it is forced, because the
    collection is empty or because the stored snapshot is stale, and
    whose refresh succeeds, answers with the coins of that very run,
    dated by the clock at the end of the run, after exactly that one
    refresh, and leaves them as the only document of the collection. *)
Theorem X13_successful_refresh_is_what_is_served
    (up : Upstream) (force_refresh : bool) (w : World)
    (cs : list Coin) (w1 : World) (hs : list HyperliquidCoin) :
  force_refresh = true \/ db w = [] \/ stale w = true ->
  get_top_funding_rate_coins up 10000000 10000000 7 10 w = (Ok cs, w1) ->
  mapM validate_coin cs = Ok hs ->
  get_hyperliquid_top_coins up force_refresh w
  = (Ok (served (snapshot cs (clock w1)) hs),
     {| db := [snapshot cs (clock w1)]; clock := clock w1; posts := posts w1 |}).
Proof.
  intros Hwhy Hrun Hv.
  pose proof (refreshed_eq up w) as HR. rewrite Hrun in HR.
  pose proof (stale_after_success up w cs w1 Hrun) as Hfresh.
  pose proof (read_run up force_refresh w) as Hread. cbv zeta in Hread.
  set (w1' := if force_refresh || negb (bool_decide (is_Some (head (db w))))
              then refreshed up w else w) in *.
  assert ((if stale w1' then refreshed up w1' else w1') = refreshed up w) as Hw2.
  { unfold w1'. destruct (force_refresh || negb (bool_decide (is_Some (head (db w)))))
      eqn:Hcond.
    - rewrite Hfresh. reflexivity.
    - apply orb_false_elim in Hcond as [-> Hsome].
      apply negb_false_iff, bool_decide_eq_true in Hsome.
      destruct Hwhy as [? | [Hdb | ->]]; [discriminate| |reflexivity].
      rewrite Hdb in Hsome. destruct Hsome. discriminate. }
  rewrite Hw2 in Hread.
  assert (is_Some (head (db w1'))) as [d1 Hd1].
  { unfold w1'. destruct (_ || _) eqn:Hcond.
    - rewrite HR. simpl. eauto.
    - apply orb_false_elim in Hcond as [_ Hsome].
      apply negb_false_iff, bool_decide_eq_true in Hsome. exact Hsome. }
  destruct Hread as [[Hnone _]|(d & Hd & _ & Hresp)]; [congruence|].
  rewrite HR in Hd, Hresp. cbn [db head] in Hd. injection Hd as <-.
  cbn [snapshot coins clock] in Hresp. rewrite Hv in Hresp.
  destruct Hresp as [(hs' & [= <-] & Hr)|[? _]]; [exact Hr|discriminate].
Qed.

Lemma X13_witness :
  fst (get_hyperliquid_top_coins (Scenario.exchange_up Scenario.btc_ctx_no_funding) true
         Scenario.world_stale)
  = Ok (served (snapshot [Scenario.btc_coin 0] (2 * MICROS_PER_HOUR + 10))
          [Scenario.btc_response_coin]).
Proof.
  assert (fst (get_top_funding_rate_coins (Scenario.exchange_up Scenario.btc_ctx_no_funding)
                 10000000 10000000 7 10 Scenario.world_stale)
          = Ok [Scenario.btc_coin 0]
          /\ clock (snd (get_top_funding_rate_coins
                           (Scenario.exchange_up Scenario.btc_ctx_no_funding)
                           10000000 10000000 7 10 Scenario.world_stale))
             = 2 * MICROS_PER_HOUR + 10) as [Hrun Hclock]
    by (split; vm_compute; reflexivity).
  destruct (get_top_funding_rate_coins (Scenario.exchange_up Scenario.btc_ctx_no_funding)
              10000000 10000000 7 10 Scenario.world_stale) as [r w1] eqn:E.
  cbn [fst snd] in Hrun, Hclock. subst r.
  rewrite (X13_successful_refresh_is_what_is_served _ true _ _ _
             [Scenario.btc_response_coin] (or_introl eq_refl) E)
    by (vm_compute; reflexivity).
  cbn [fst]. rewrite Hclock. reflexivity.
Defined.

(** * The agent cache *)

Section AgentCache.
Context {Agent AgentConfig : Type}.
Variables SearchAgent ChatAgent : AgentConfig -> result Agent.
Variable config : AgentConfig.

Local Abbreviation get_or_create :=
  (_get_or_create_agent SearchAgent ChatAgent config).

Lemma get_or_create_run agent_type agent_cache :
  get_or_create agent_type agent_cache =
  match cache_of agent_cache !! agent_type with
  | Some agent => (Ok agent, Some (cache_of agent_cache))
  | None =>
      if bool_decide (agent_type = "search") then
        match SearchAgent config with
        | Ok agent => (Ok agent, Some (<[agent_type := agent]> (cache_of agent_cache)))
        | Raise e => (Raise e, Some (cache_of agent_cache))
        end
      else if bool_decide (agent_type = "chat") then
        match ChatAgent config with
        | Ok agent => (Ok agent, Some (<[agent_type := agent]> (cache_of agent_cache)))
        | Raise e => (Raise e, Some (cache_of agent_cache))
        end
      else (Raise (HTTPException 400), Some (cache_of agent_cache))
  end.
Proof. destruct agent_cache as [cache|]; reflexivity. Qed.

(** X15. Only the types "search" and "chat" ever get an agent: a cache
    whose keys are among the two keeps that property through every
    call, and for such a cache any other type is answered with HTTP 400,
    no constructor result being stored and the cache keeping its
    content. *)
Theorem X15_only_search_and_chat_agents
    (agent_type : string) (agent_cache : option (gmap string Agent)) :
  dom (cache_of agent_cache) ⊆ ({[ "search"; "chat" ]} : gset string) ->
  dom (cache_of (snd (get_or_create agent_type agent_cache)))
    ⊆ ({[ "search"; "chat" ]} : gset string)
  /\ (agent_type <> "search" -> agent_type <> "chat" ->
      get_or_create agent_type agent_cache
      = (Raise (HTTPException 400), Some (cache_of agent_cache))).
Proof.
  intros Hdom. rewrite get_or_create_run.
  destruct (cache_of agent_cache !! agent_type) as [agent|] eqn:Hhit.
  - split; [exact Hdom|]. intros Hs Hc. exfalso.
    assert (agent_type ∈ dom (cache_of agent_cache)) as Hin
      by (apply elem_of_dom; eauto).
    specialize (Hdom _ Hin). set_solver.
  - case_bool_decide as Hs; [|case_bool_decide as Hc].
    + split; [|intros Hne; contradiction].
      destruct (SearchAgent config); cbn [snd cache_of default]; unfold id;
        [|exact Hdom].
      rewrite dom_insert. set_solver.
    + split; [|intros _ Hne; contradiction].
      destruct (ChatAgent config); cbn [snd cache_of default]; unfold id;
        [|exact Hdom].
      rewrite dom_insert. set_solver.
    + split; [exact Hdom|]. reflexivity.
Qed.

(** X16. An agent is created at most once per type: after a call that
    returned an agent, the cache holds that agent under the type and is
    unchanged for every other type, and every later call for the type
    returns the same agent and leaves the cache as it is, whatever the
    constructors and the configuration would give by then. *)
Theorem X16_agent_is_created_once
    (agent_type : string) (agent_cache agent_cache' : option (gmap string Agent))
    (agent : Agent) :
  get_or_create agent_type agent_cache = (Ok agent, agent_cache') ->
  cache_of agent_cache' !! agent_type = Some agent
  /\ (forall other, other <> agent_type ->
        cache_of agent_cache' !! other = cache_of agent_cache !! other)
  /\ (forall (SearchAgent' ChatAgent' : AgentConfig -> result Agent)
             (config' : AgentConfig),
        _get_or_create_agent SearchAgent' ChatAgent' config' agent_type agent_cache'
        = (Ok agent, agent_cache')).
Proof.
  rewrite get_or_create_run. intros Hcall.
  assert (cache_of agent_cache' !! agent_type = Some agent
          /\ (forall other, other <> agent_type ->
                cache_of agent_cache' !! other = cache_of agent_cache !! other)
          /\ agent_cache' = Some (cache_of agent_cache')) as (Hhit & Hother & Hstate).
  { destruct (cache_of agent_cache !! agent_type) as [a|] eqn:Hlook.
    - injection Hcall as <- <-. cbn [cache_of default]. auto.
    - case_bool_decide; [|case_bool_decide].
      + destruct (SearchAgent config); [|discriminate].
        injection Hcall as <- <-. cbn [cache_of default].
        split; [apply lookup_insert_eq|]. split; [|reflexivity].
        intros other Hne. apply lookup_insert_ne. congruence.
      + destruct (ChatAgent config); [|discriminate].
        injection Hcall as <- <-. cbn [cache_of default].
        split; [apply lookup_insert_eq|]. split; [|reflexivity].
        intros other Hne. apply lookup_insert_ne. congruence.
      + discriminate. }
  split; [exact Hhit|]. split; [exact Hother|].
  intros SearchAgent' ChatAgent' config'.
  unfold _get_or_create_agent, _get_agent_cache. rewrite Hstate.
  cbn [cache_of default] in Hhit |- *. rewrite Hhit. reflexivity.
Qed.
End AgentCache.

Lemma X15_witness :
  _get_or_create_agent (fun _ : unit => Ok 1%nat) (fun _ : unit => Ok 2%nat) tt
    "planner" None
  = (Raise (HTTPException 400), Some ∅).
Proof.
  apply (X15_only_search_and_chat_agents (fun _ : unit => Ok 1%nat)
           (fun _ : unit => Ok 2%nat) tt "planner" None);
    [cbn [cache_of default]; set_solver|discriminate|discriminate].
Defined.

Lemma X16_witness :
  _get_or_create_agent (fun _ : unit => Raise TypeError) (fun _ : unit => Raise TypeError)
    tt "chat" (Some {[ "chat" := 2%nat ]})
  = (Ok 2%nat, Some {[ "chat" := 2%nat ]}).
Proof.
  apply (X16_agent_is_created_once (fun _ : unit => Ok 1%nat) (fun _ : unit => Ok 2%nat)
           tt "chat" None (Some {[ "chat" := 2%nat ]}) 2%nat).
  reflexivity.
Defined.
